(** * Button-driven menu navigation: the sketch's three tasks, embedded

    Shallow embedding of [sketch.ino]: the button classifier
    ([ButtonInput_Thread]), the menu state machine ([MenuLogic_Thread]) and
    the display task ([DisplayManager_Thread]).

    Conventions.
    - [TickType_t], [uint32_t], [uint16_t] and [uint8_t] values are [Z] with
      the wrap-around of every operation written out ([u32], [u16], [u8]).
    - [int] values are [Z]; signed overflow is undefined in C and is not
      reachable here for the counters that stay small.
    - A loop iteration of a task is a function from the task's locals and the
      input of that iteration to the new locals and the list of messages it
      sends ([xQueueSend] calls, in program order).  Whether a full queue
      drops a message is the queue's business, not the sender's.
    - An access outside an array, or a shift by an amount outside the width,
      has no defined behaviour in C: the embedding stops with [Undefined]. *)

From Stdlib Require Import ZArith Bool Lia.
From stdpp Require Import base list.

Local Open Scope Z_scope.

(** ** Machine integers *)

Definition u8 (z : Z) : Z := z mod 2 ^ 8.
Definition u16 (z : Z) : Z := z mod 2 ^ 16.
Definition u32 (z : Z) : Z := z mod 2 ^ 32.

(** ** Undefined behaviour as an error result *)

Inductive fault : Type :=
  | OutOfBounds (index : Z)      (* array subscript outside the array *)
  | ShiftTooFar (amount : Z)     (* shift amount outside 0..31 *)
  | NeverReturns.                (* a receive with portMAX_DELAY does not time out *)

Inductive result (A : Type) : Type :=
  | Ok (a : A)
  | Undefined (f : fault).

Arguments Ok {A} a.
Arguments Undefined {A} f.

Definition bind {A B : Type} (r : result A) (k : A -> result B) : result B :=
  match r with
  | Ok a => k a
  | Undefined f => Undefined f
  end.

Notation "'do' x <- e ; k" := (bind e (fun x => k))
  (at level 10, x name, e at level 100, k at level 200).

Notation "'do' ( x , y ) <- e ; k" := (bind e (fun p => let '(x, y) := p in k))
  (at level 10, x name, y name, e at level 100, k at level 200).

(** ** Constants of the sketch *)

Definition DEBOUNCE_TICKS : Z := 4.
Definition SHORT_PRESS_MAX_MS : Z := 300.
Definition LONG_PRESS_MIN_MS : Z := 1500.
Definition MULTI_CLICK_TIMEOUT_MS : Z := 700.
Definition AUTO_CYCLE_PERIOD_MS : Z := 2000.
Definition NUM_PATTERNS : Z := 4.
Definition MENU_ITEMS_COUNT : Z := 4.
Definition BRIGHTNESS_MAX : Z := 10.
Definition BRIGHTNESS_MIN : Z := 0.

Definition patterns : list Z := [0xFFFF; 0xAAAA; 0x5555; 0x0F0F].

Definition BTN1_PIN : Z := 21.
Definition BTN2_PIN : Z := 48.
Definition BTN3_PIN : Z := 47.
Definition DS_PIN : Z := 4.
Definition OE_PIN : Z := 5.
Definition LATCH_PIN : Z := 6.
Definition CLOCK_PIN : Z := 7.
Definition MR_PIN : Z := 15.

(** ** Messages *)

Inductive press_type_t : Type :=
  | PRESS_SINGLE
  | PRESS_DOUBLE
  | PRESS_TRIPLE
  | PRESS_LONG.

Record button_event_t : Type := button_event {
  button_id : Z;
  type : press_type_t;
  timestamp : Z
}.

Record display_info_t : Type := display_info {
  pattern : Z;
  brightness : Z
}.

Inductive menu_state_t : Type :=
  | STATE_MAIN_MENU
  | STATE_BRIGHTNESS
  | STATE_MODE_SELECT
  | STATE_MANUAL_MODE
  | STATE_AUTO_MODE
  | STATE_INFO
  | STATE_RESET
  | STATE_POWER_OFF.

Definition press_type_eqb (a b : press_type_t) : bool :=
  match a, b with
  | PRESS_SINGLE, PRESS_SINGLE | PRESS_DOUBLE, PRESS_DOUBLE
  | PRESS_TRIPLE, PRESS_TRIPLE | PRESS_LONG, PRESS_LONG => true
  | _, _ => false
  end.

(** ** The button tracker *)

Record button_tracker_t : Type := button_tracker {
  pin : Z;
  last_state : bool;
  debounce_counter : Z;
  press_start_time : Z;
  last_release_time : Z;
  click_counter : Z;
  press_times : list Z           (* TickType_t press_times[4] *)
}.

Definition set_last_state (v : bool) (b : button_tracker_t) : button_tracker_t :=
  button_tracker (pin b) v (debounce_counter b) (press_start_time b)
    (last_release_time b) (click_counter b) (press_times b).

Definition set_debounce_counter (v : Z) (b : button_tracker_t) : button_tracker_t :=
  button_tracker (pin b) (last_state b) v (press_start_time b)
    (last_release_time b) (click_counter b) (press_times b).

Definition set_press_start_time (v : Z) (b : button_tracker_t) : button_tracker_t :=
  button_tracker (pin b) (last_state b) (debounce_counter b) v
    (last_release_time b) (click_counter b) (press_times b).

Definition set_last_release_time (v : Z) (b : button_tracker_t) : button_tracker_t :=
  button_tracker (pin b) (last_state b) (debounce_counter b) (press_start_time b)
    v (click_counter b) (press_times b).

Definition set_click_counter (v : Z) (b : button_tracker_t) : button_tracker_t :=
  button_tracker (pin b) (last_state b) (debounce_counter b) (press_start_time b)
    (last_release_time b) v (press_times b).

Definition set_press_times (v : list Z) (b : button_tracker_t) : button_tracker_t :=
  button_tracker (pin b) (last_state b) (debounce_counter b) (press_start_time b)
    (last_release_time b) (click_counter b) v.

(** [a[idx] = v] on an array held as a list: defined only inside the array. *)
Definition array_store (a : list Z) (idx v : Z) : result (list Z) :=
  if (0 <=? idx) && (idx <? Z.of_nat (length a))
  then Ok (<[Z.to_nat idx := v]> a)
  else Undefined (OutOfBounds idx).

(** [a[idx]] on an array held as a list. *)
Definition array_load (a : list Z) (idx : Z) : result Z :=
  if (0 <=? idx) && (idx <? Z.of_nat (length a))
  then match a !! Z.to_nat idx with
       | Some v => Ok v
       | None => Undefined (OutOfBounds idx)
       end
  else Undefined (OutOfBounds idx).

(** The initialiser [{BTNn_PIN, false, 0, 0, 0, 0, {0,0,0,0}}]. *)
Definition tracker_init (p : Z) : button_tracker_t :=
  button_tracker p false 0 0 0 0 [0; 0; 0; 0].

Definition buttons_init : list button_tracker_t :=
  [tracker_init BTN1_PIN; tracker_init BTN2_PIN; tracker_init BTN3_PIN].

(** ** ButtonInput_Thread *)

Section ButtonInput_Thread.

(** The FreeRTOS tick rate is set in the board's configuration, which is
    not part of the sketch: every definition takes it as a parameter. *)
Variable configTICK_RATE_HZ : Z.

(** FreeRTOS: [(TickType_t)ms * (TickType_t)configTICK_RATE_HZ / 1000U]. *)
Definition pdMS_TO_TICKS (ms : Z) : Z := u32 (ms * configTICK_RATE_HZ) / 1000.

(** The branch [if (current)] of an accepted transition. *)
Definition press_accepted (now : Z) (b : button_tracker_t) : result button_tracker_t :=
  let b := set_press_start_time now b in
  let b :=
    if (0 <? last_release_time b) &&
       (u32 (now - last_release_time b) <? pdMS_TO_TICKS MULTI_CLICK_TIMEOUT_MS)
    then set_click_counter (click_counter b + 1) b
    else set_click_counter 1 b in
  do pt <- array_store (press_times b) (click_counter b) now;
  Ok (set_last_release_time 0 (set_press_times pt b)).

(** The [else] branch of an accepted transition: the button was released. *)
Definition release_accepted (i now : Z) (b : button_tracker_t)
  : button_tracker_t * list button_event_t :=
  let duration := u32 (now - press_start_time b) in
  if pdMS_TO_TICKS LONG_PRESS_MIN_MS <=? duration then
    (set_last_release_time 0 (set_click_counter 0 b),
     [button_event (u8 (i + 1)) PRESS_LONG now])
  else if duration <=? pdMS_TO_TICKS SHORT_PRESS_MAX_MS then
    (set_last_release_time now b, [])
  else
    (set_last_release_time 0 (set_click_counter 0 b), []).

(** The debounce step: the first [if] of the loop body. *)
Definition debounce (i now level : Z) (b : button_tracker_t)
  : result (button_tracker_t * list button_event_t) :=
  let current := level =? 0 in
  if Bool.eqb current (last_state b) then
    Ok (set_debounce_counter 0 b, [])
  else
    let b := set_debounce_counter (debounce_counter b + 1) b in
    if DEBOUNCE_TICKS <=? debounce_counter b then
      let b := set_last_state current (set_debounce_counter 0 b) in
      if current then
        do b' <- press_accepted now b; Ok (b', [])
      else Ok (release_accepted i now b)
    else Ok (b, []).

(** The guard of the second [if] of the loop body. *)
Definition sequence_timed_out (now : Z) (b : button_tracker_t) : bool :=
  (1 <=? click_counter b) && (0 <? last_release_time b) &&
  (pdMS_TO_TICKS MULTI_CLICK_TIMEOUT_MS <=? u32 (now - last_release_time b)).

(** The press types sent when a sequence of [count] clicks is finalised. *)
Definition finalize_types (count : Z) (pt : list Z) : result (list press_type_t) :=
  if count =? 1 then Ok [PRESS_SINGLE]
  else if count =? 2 then
    do t2 <- array_load pt 2;
    do t1 <- array_load pt 1;
    let span := u32 (t2 - t1) in
    if span <? pdMS_TO_TICKS 500 then Ok [PRESS_DOUBLE]
    else Ok [PRESS_SINGLE; PRESS_SINGLE]
  else if count =? 3 then
    do t3 <- array_load pt 3;
    do t1 <- array_load pt 1;
    let span := u32 (t3 - t1) in
    if span <? pdMS_TO_TICKS 700 then Ok [PRESS_TRIPLE]
    else
      do t2 <- array_load pt 2;
      let span_first_two := u32 (t2 - t1) in
      let span_last_two := u32 (t3 - t2) in
      if span_first_two <? pdMS_TO_TICKS 500 then Ok [PRESS_DOUBLE; PRESS_SINGLE]
      else if span_last_two <? pdMS_TO_TICKS 500 then Ok [PRESS_SINGLE; PRESS_DOUBLE]
      else Ok [PRESS_SINGLE; PRESS_SINGLE; PRESS_SINGLE]
  else Ok [].

(** The second [if] of the loop body: a pending sequence that timed out. *)
Definition multi_click_timeout (i now : Z) (b : button_tracker_t)
  : result (button_tracker_t * list button_event_t) :=
  if sequence_timed_out now b then
    let current_time := now in
    let count := click_counter b in
    do tys <- finalize_types count (press_times b);
    Ok (set_last_release_time 0 (set_click_counter 0 b),
        map (fun ty => button_event (u8 (i + 1)) ty current_time) tys)
  else Ok (b, []).

(** One pass of the [for] loop body for button [i], with the sampled level. *)
Definition button_poll (i now level : Z) (b : button_tracker_t)
  : result (button_tracker_t * list button_event_t) :=
  do (b1, sent1) <- debounce i now level b;
  do (b2, sent2) <- multi_click_timeout i now b1;
  Ok (b2, sent1 ++ sent2).

(** The [for (int i = 0; i < 3; i++)] loop, from index [i] on. *)
Fixpoint poll_from (i now : Z) (gpio_get_level : Z -> Z) (bs : list button_tracker_t)
  : result (list button_tracker_t * list button_event_t) :=
  match bs with
  | [] => Ok ([], [])
  | b :: rest =>
      do (b', sent) <- button_poll i now (gpio_get_level (pin b)) b;
      do (rest', sent') <- poll_from (i + 1) now gpio_get_level rest;
      Ok (b' :: rest', sent ++ sent')
  end.

(** One iteration of [while (true)]: [now] is [xTaskGetTickCount()]. *)
Definition ButtonInput_iter (now : Z) (gpio_get_level : Z -> Z)
    (buttons : list button_tracker_t)
  : result (list button_tracker_t * list button_event_t) :=
  poll_from 0 now gpio_get_level buttons.

(** Button [i] alone over successive iterations, each given as
    [(now, level)]; the events sent are collected in order. *)
Fixpoint run_button (i : Z) (samples : list (Z * Z)) (b : button_tracker_t)
  : result (button_tracker_t * list button_event_t) :=
  match samples with
  | [] => Ok (b, [])
  | (now, level) :: rest =>
      do (b', sent) <- button_poll i now level b;
      do (b'', sent') <- run_button i rest b';
      Ok (b'', sent ++ sent')
  end.

(** The number of accepted press transitions over the same iterations:
    the physical presses the debouncer recognised. *)
Fixpoint presses_accepted (i : Z) (samples : list (Z * Z)) (b : button_tracker_t) : Z :=
  match samples with
  | [] => 0
  | (now, level) :: rest =>
      let pressed :=
        negb (Bool.eqb (level =? 0) (last_state b)) &&
        (DEBOUNCE_TICKS <=? debounce_counter b + 1) && (level =? 0) in
      match button_poll i now level b with
      | Ok (b', _) => (if pressed then 1 else 0) + presses_accepted i rest b'
      | Undefined _ => if pressed then 1 else 0
      end
  end.

End ButtonInput_Thread.

(** Sample streams for one button: [n] successive iterations, 5 ticks apart
    ([vTaskDelay(pdMS_TO_TICKS(5))] at 1000 Hz), all reading [level]. *)
Fixpoint hold (level start : Z) (n : nat) : list (Z * Z) :=
  match n with
  | O => []
  | S n' => (start, level) :: hold level (start + 5) n'
  end.

(** Four short presses (20 ticks down, 20 ticks up), accepted at ticks
    20, 60, 100 and 140. *)
Definition four_short_presses : list (Z * Z) :=
  hold 0 5 4 ++ hold 1 25 4 ++ hold 0 45 4 ++ hold 1 65 4 ++
  hold 0 85 4 ++ hold 1 105 4 ++ hold 0 125 4 ++ hold 1 145 4.

(** Two short presses: the first is released (accepted) at tick 40, the
    second is accepted at tick 740, the very iteration at which the click
    window of the first one expires; then the line stays idle for longer
    than the window. *)
Definition two_presses_at_window_edge : list (Z * Z) :=
  hold 0 5 4 ++ hold 1 25 140 ++ hold 0 725 4 ++ hold 1 745 145.

(** How many physical presses an event stands for. *)
Definition multiplicity (ty : press_type_t) : Z :=
  match ty with
  | PRESS_SINGLE => 1
  | PRESS_DOUBLE => 2
  | PRESS_TRIPLE => 3
  | PRESS_LONG => 1
  end.

Definition presses_reported (sent : list button_event_t) : Z :=
  foldr (fun ev acc => multiplicity (type ev) + acc) 0 sent.

(** ** MenuLogic_Thread *)

Module MenuLogic.

(** The locals of [MenuLogic_Thread] that live across iterations. *)
Record locals : Type := Locals {
  state : menu_state_t;
  selected_item : Z;
  brightness : Z;
  is_auto_mode : bool;
  current_pattern_idx : Z;
  info_page : Z;
  temp_is_auto_mode : bool;
  temp_pattern_idx : Z
}.

Definition set_state (v : menu_state_t) (m : locals) : locals :=
  Locals v (selected_item m) (brightness m) (is_auto_mode m)
    (current_pattern_idx m) (info_page m) (temp_is_auto_mode m) (temp_pattern_idx m).

Definition set_selected_item (v : Z) (m : locals) : locals :=
  Locals (state m) v (brightness m) (is_auto_mode m)
    (current_pattern_idx m) (info_page m) (temp_is_auto_mode m) (temp_pattern_idx m).

Definition set_brightness (v : Z) (m : locals) : locals :=
  Locals (state m) (selected_item m) v (is_auto_mode m)
    (current_pattern_idx m) (info_page m) (temp_is_auto_mode m) (temp_pattern_idx m).

Definition set_is_auto_mode (v : bool) (m : locals) : locals :=
  Locals (state m) (selected_item m) (brightness m) v
    (current_pattern_idx m) (info_page m) (temp_is_auto_mode m) (temp_pattern_idx m).

Definition set_current_pattern_idx (v : Z) (m : locals) : locals :=
  Locals (state m) (selected_item m) (brightness m) (is_auto_mode m)
    v (info_page m) (temp_is_auto_mode m) (temp_pattern_idx m).

Definition set_info_page (v : Z) (m : locals) : locals :=
  Locals (state m) (selected_item m) (brightness m) (is_auto_mode m)
    (current_pattern_idx m) v (temp_is_auto_mode m) (temp_pattern_idx m).

Definition set_temp_is_auto_mode (v : bool) (m : locals) : locals :=
  Locals (state m) (selected_item m) (brightness m) (is_auto_mode m)
    (current_pattern_idx m) (info_page m) v (temp_pattern_idx m).

Definition set_temp_pattern_idx (v : Z) (m : locals) : locals :=
  Locals (state m) (selected_item m) (brightness m) (is_auto_mode m)
    (current_pattern_idx m) (info_page m) (temp_is_auto_mode m) v.

(** The declarations at the top of the task. *)
Definition locals_init : locals :=
  Locals STATE_MAIN_MENU 0 5 false 0 0 false 0.

(** [1U << n], as a 32-bit unsigned value. *)
Definition shl1 (n : Z) : result Z :=
  if (0 <=? n) && (n <? 32) then Ok (u32 (Z.shiftl 1 n))
  else Undefined (ShiftTooFar n).

(** The update sent before the loop: [{(1U << selected_item), brightness}]. *)
Definition initial_info : result display_info_t :=
  do p <- shl1 (selected_item locals_init);
  Ok (display_info (u16 p) (brightness locals_init)).

(** What [xQueueReceive] hands back: an event ([pdTRUE]) or nothing
    ([pdFALSE], the wait timed out). *)
Inductive received : Type :=
  | Event (ev : button_event_t)
  | Timeout.

(** How long the receive of an iteration waits: [Some ticks], or [None]
    for [portMAX_DELAY], which blocks until an event arrives. *)
Definition receive_wait (configTICK_RATE_HZ : Z) (s : menu_state_t) : option Z :=
  match s with
  | STATE_AUTO_MODE => Some (pdMS_TO_TICKS configTICK_RATE_HZ AUTO_CYCLE_PERIOD_MS)
  | _ => None
  end.

Definition is_press (ev : button_event_t) (id : Z) (ty : press_type_t) : bool :=
  (button_id ev =? id) && press_type_eqb (type ev) ty.

(** The [if (state == STATE_POWER_OFF)] block: new locals and
    [update_display]. *)
Definition power_off_event (m : locals) (ev : button_event_t) : locals * bool :=
  if is_press ev 1 PRESS_LONG then
    let m := set_state STATE_MAIN_MENU m in
    let m := set_selected_item 0 m in
    let m := set_brightness 5 m in
    let m := set_is_auto_mode false m in
    let m := set_current_pattern_idx 0 m in
    (m, true)
  else (m, false).

(** The [switch (selected_item)] of the main menu. *)
Definition enter_submenu (m : locals) : locals :=
  if selected_item m =? 0 then set_state STATE_BRIGHTNESS m
  else if selected_item m =? 1 then
    set_temp_is_auto_mode (is_auto_mode m) (set_state STATE_MODE_SELECT m)
  else if selected_item m =? 2 then set_info_page 0 (set_state STATE_INFO m)
  else if selected_item m =? 3 then set_state STATE_RESET m
  else m.

(** The [switch (state)] on an event: new locals and [update_display]. *)
Definition switch_state (m : locals) (ev : button_event_t) : locals * bool :=
  match state m with
  | STATE_MAIN_MENU =>
      if is_press ev 1 PRESS_SINGLE then
        (set_selected_item (Z.rem (selected_item m + 1) MENU_ITEMS_COUNT) m, true)
      else if is_press ev 3 PRESS_SINGLE then
        (set_selected_item
           (Z.rem (selected_item m - 1 + MENU_ITEMS_COUNT) MENU_ITEMS_COUNT) m, true)
      else if is_press ev 2 PRESS_SINGLE then (enter_submenu m, true)
      else if is_press ev 3 PRESS_LONG then (set_state STATE_POWER_OFF m, true)
      else (m, false)
  | STATE_BRIGHTNESS =>
      if is_press ev 2 PRESS_SINGLE then
        ((if brightness m <? BRIGHTNESS_MAX
          then set_brightness (u8 (brightness m + 1)) m else m), true)
      else if is_press ev 3 PRESS_SINGLE then
        ((if BRIGHTNESS_MIN <? brightness m
          then set_brightness (u8 (brightness m - 1)) m else m), true)
      else if is_press ev 1 PRESS_SINGLE then (set_state STATE_MAIN_MENU m, true)
      else (m, false)
  | STATE_MODE_SELECT =>
      if is_press ev 1 PRESS_SINGLE then
        (set_temp_is_auto_mode (negb (temp_is_auto_mode m)) m, true)
      else if is_press ev 2 PRESS_SINGLE then
        let m := set_is_auto_mode (temp_is_auto_mode m) m in
        ((if is_auto_mode m then set_state STATE_AUTO_MODE m
          else set_temp_pattern_idx (current_pattern_idx m)
                 (set_state STATE_MANUAL_MODE m)), true)
      else if is_press ev 3 PRESS_SINGLE then (set_state STATE_MAIN_MENU m, true)
      else (m, false)
  | STATE_MANUAL_MODE =>
      if is_press ev 1 PRESS_SINGLE then
        (set_temp_pattern_idx (Z.rem (temp_pattern_idx m + 1) NUM_PATTERNS) m, true)
      else if is_press ev 2 PRESS_SINGLE then
        (set_state STATE_MAIN_MENU
           (set_current_pattern_idx (temp_pattern_idx m) m), true)
      else if is_press ev 3 PRESS_SINGLE then (set_state STATE_MAIN_MENU m, true)
      else (m, false)
  | STATE_AUTO_MODE =>
      if is_press ev 1 PRESS_SINGLE then (set_state STATE_MAIN_MENU m, true)
      else (m, false)
  | STATE_INFO =>
      if is_press ev 1 PRESS_SINGLE then
        (set_info_page (Z.rem (info_page m + 1) 2) m, true)
      else if is_press ev 3 PRESS_SINGLE then (set_state STATE_MAIN_MENU m, true)
      else (m, false)
  | STATE_RESET =>
      if is_press ev 2 PRESS_DOUBLE then
        let m := set_brightness 5 m in
        let m := set_is_auto_mode false m in
        let m := set_current_pattern_idx 0 m in
        let m := set_state STATE_MAIN_MENU m in
        (m, true)
      else if is_press ev 3 PRESS_SINGLE then (set_state STATE_MAIN_MENU m, true)
      else (m, false)
  | STATE_POWER_OFF => (m, false)
  end.

(** The second [switch (state)]: the pattern to show, as a [uint16_t]. *)
Definition display_pattern (m : locals) : result Z :=
  match state m with
  | STATE_MAIN_MENU => do p <- shl1 (selected_item m); Ok (u16 p)
  | STATE_BRIGHTNESS =>
      if brightness m =? 0 then Ok 0
      else do p <- shl1 (brightness m); Ok (u16 (u32 (p - 1)))
  | STATE_MODE_SELECT => Ok (if temp_is_auto_mode m then 0x000C else 0x0003)
  | STATE_MANUAL_MODE => array_load patterns (temp_pattern_idx m)
  | STATE_AUTO_MODE => array_load patterns (current_pattern_idx m)
  | STATE_INFO => Ok (if info_page m =? 0 then 0x000F else 0x00F0)
  | STATE_RESET => Ok 0xAAAA
  | STATE_POWER_OFF => Ok 0x0000
  end.

(** What an event does to the locals, and whether the iteration goes on
    to send an update.  In [STATE_POWER_OFF] the block ends in [continue]
    whatever [update_display] holds. *)
Definition handle_event (m : locals) (ev : button_event_t) : locals * bool :=
  match state m with
  | STATE_POWER_OFF =>
      let '(m, update_display) := power_off_event m ev in
      (m, false)
  | _ => switch_state m ev
  end.

(** One iteration of [while (true)], given what the receive handed back:
    the new locals and the updates sent to the display queue. *)
Definition MenuLogic_iter (m : locals) (r : received)
  : result (locals * list display_info_t) :=
  match r with
  | Timeout =>
      match state m with
      | STATE_AUTO_MODE =>
          let m := set_current_pattern_idx
                     (Z.rem (current_pattern_idx m + 1) NUM_PATTERNS) m in
          do p <- array_load patterns (current_pattern_idx m);
          Ok (m, [display_info p (brightness m)])
      | _ => Undefined NeverReturns
      end
  | Event ev =>
      let '(m, update_display) := handle_event m ev in
      if negb update_display then Ok (m, [])
      else
        do p <- display_pattern m;
        Ok (m, [display_info p (brightness m)])
  end.

(** The task over a list of receive results, collecting what it sends. *)
Fixpoint MenuLogic_run (m : locals) (rs : list received)
  : result (locals * list display_info_t) :=
  match rs with
  | [] => Ok (m, [])
  | r :: rest =>
      do (m', sent) <- MenuLogic_iter m r;
      do (m'', sent') <- MenuLogic_run m' rest;
      Ok (m'', sent ++ sent')
  end.

(** The transition table of the specification: is [(id, ty)] an input
    listed for state [s]?  Written from the table, row by row. *)
Definition listed (s : menu_state_t) (id : Z) (ty : press_type_t) : bool :=
  match s, ty with
  | STATE_MAIN_MENU, PRESS_SINGLE => (id =? 1) || (id =? 3) || (id =? 2)
  | STATE_MAIN_MENU, PRESS_LONG => id =? 3
  | STATE_BRIGHTNESS, PRESS_SINGLE => (id =? 2) || (id =? 3) || (id =? 1)
  | STATE_MODE_SELECT, PRESS_SINGLE => (id =? 1) || (id =? 2) || (id =? 3)
  | STATE_MANUAL_MODE, PRESS_SINGLE => (id =? 1) || (id =? 2) || (id =? 3)
  | STATE_AUTO_MODE, PRESS_SINGLE => id =? 1
  | STATE_INFO, PRESS_SINGLE => (id =? 1) || (id =? 3)
  | STATE_RESET, PRESS_DOUBLE => id =? 2
  | STATE_RESET, PRESS_SINGLE => id =? 3
  | STATE_POWER_OFF, PRESS_LONG => id =? 1
  | _, _ => false
  end.

(** The ranges the locals stay in. *)
Definition in_range (m : locals) : Prop :=
  0 <= selected_item m <= 3 /\ 0 <= brightness m <= 10 /\
  0 <= current_pattern_idx m <= 3 /\ 0 <= info_page m <= 1 /\
  0 <= temp_pattern_idx m <= 3.

End MenuLogic.

(** ** DisplayManager_Thread *)

(** The calls the display task makes on the hardware, in order. *)
Inductive hw_call : Type :=
  | xSemaphoreTake
  | xSemaphoreGive
  | gpio_set_level (gpio level : Z)
  | ledc_set_duty (duty : Z)
  | ledc_update_duty.

(** The body of one [for] loop of [shift_out_pattern], for bit [i]. *)
Definition shift_bit (pattern i : Z) : list hw_call :=
  [gpio_set_level DS_PIN (if Z.land pattern (u32 (Z.shiftl 1 i)) =? 0 then 0 else 1);
   gpio_set_level CLOCK_PIN 1;
   gpio_set_level CLOCK_PIN 0].

Definition shift_out_pattern (pattern : Z) : list hw_call :=
  flat_map (shift_bit pattern) [7; 6; 5; 4; 3; 2; 1; 0] ++
  flat_map (shift_bit pattern) [15; 14; 13; 12; 11; 10; 9; 8] ++
  [gpio_set_level LATCH_PIN 1; gpio_set_level LATCH_PIN 0].

(** [max_duty * (10 - info.brightness) / 10] in [uint32_t] arithmetic. *)
Definition duty_of (b : Z) : Z :=
  let max_duty := u32 (Z.shiftl 1 10 - 1) in
  u32 (max_duty * u32 (10 - b)) / 10.

(** One received update: the new [current_brightness] and the calls made. *)
Definition DisplayManager_iter (current_brightness : Z) (info : display_info_t)
  : Z * list hw_call :=
  let shifted := xSemaphoreTake :: shift_out_pattern (pattern info) in
  if negb (brightness info =? current_brightness) then
    (brightness info,
     shifted ++ [ledc_set_duty (duty_of (brightness info)); ledc_update_duty]
             ++ [xSemaphoreGive])
  else (current_brightness, shifted ++ [xSemaphoreGive]).

(** The duty writes among the calls. *)
Definition duty_writes (calls : list hw_call) : list Z :=
  flat_map (fun c => match c with ledc_set_duty d => [d] | _ => [] end) calls.

(** The task over the updates it receives, from the remembered brightness
    [current_brightness]: what it remembers at the end and every call made. *)
Fixpoint DisplayManager_run (current_brightness : Z) (infos : list display_info_t)
  : Z * list hw_call :=
  match infos with
  | [] => (current_brightness, [])
  | info :: rest =>
      let '(applied, calls) := DisplayManager_iter current_brightness info in
      let '(final, calls') := DisplayManager_run applied rest in
      (final, calls ++ calls')
  end.

(** ** Observers used in the statements *)

(** A tracker as the classifier keeps it: the debounce counter below the
    threshold, at most three clicks pending, four press-time slots. *)
Definition tracker_ok (b : button_tracker_t) : Prop :=
  0 <= debounce_counter b <= 3 /\ 0 <= click_counter b <= 3 /\
  length (press_times b) = 4%nat.

(** What the shift register takes in: the level of the data line at each
    rising edge of the clock, [ds] being the level before the calls. *)
Fixpoint clocked_in (ds : Z) (calls : list hw_call) : list Z :=
  match calls with
  | [] => []
  | gpio_set_level g v :: rest =>
      if g =? DS_PIN then clocked_in v rest
      else if (g =? CLOCK_PIN) && (v =? 1) then ds :: clocked_in ds rest
      else clocked_in ds rest
  | _ :: rest => clocked_in ds rest
  end.

(** The rising edges of the latch line among the calls. *)
Definition latch_pulses (calls : list hw_call) : nat :=
  length (filter (fun c => match c with
                           | gpio_set_level g v => (g =? LATCH_PIN) && (v =? 1)
                           | _ => false
                           end = true) calls).

(** The order in which [shift_out_pattern] sends the bits of the pattern. *)
Definition shift_order : list Z :=
  [7; 6; 5; 4; 3; 2; 1; 0; 15; 14; 13; 12; 11; 10; 9; 8].

(** The word whose bit [i] is the level clocked in for bit [i]. *)
Fixpoint word_of_bits (order bits : list Z) : Z :=
  match order, bits with
  | i :: order', v :: bits' => Z.lor (Z.shiftl v i) (word_of_bits order' bits')
  | _, _ => 0
  end.

(** A single press of button [id], as the menu task receives it. *)
Definition single (id t : Z) : MenuLogic.received :=
  MenuLogic.Event (button_event id PRESS_SINGLE t).

(** A long press of button [id], as the menu task receives it. *)
Definition long (id t : Z) : MenuLogic.received :=
  MenuLogic.Event (button_event id PRESS_LONG t).

(** * Properties of the button classifier *)

Section ButtonInput_facts.

Variable hz : Z.

Local Abbreviation ticks := (pdMS_TO_TICKS hz).

(** The press-time array keeps its four slots. *)
Lemma array_store_length (a a' : list Z) (idx v : Z) :
  array_store a idx v = Ok a' -> length a' = length a.
Proof.
  unfold array_store.
  destruct ((0 <=? idx) && (idx <? Z.of_nat (length a))); intros H; [|discriminate].
  injection H as <-. apply length_insert.
Qed.

Lemma press_accepted_length (now : Z) (b b' : button_tracker_t) :
  press_accepted hz now b = Ok b' -> length (press_times b') = length (press_times b).
Proof.
  unfold press_accepted.
  destruct ((0 <? _) && _); simpl;
    match goal with
    | |- context [array_store ?a ?k ?v] => destruct (array_store a k v) as [pt|f] eqn:E
    end; simpl; intros H; try discriminate;
    injection H as <-; simpl; eapply array_store_length, E.
Qed.

(** X8. An accepted press stores inside the array exactly when the new click
    count is 1, 2 or 3. *)
Lemma press_accepted_defined (now : Z) (b : button_tracker_t) :
  length (press_times b) = 4%nat ->
  0 <= click_counter b ->
  (exists b', press_accepted hz now b = Ok b') <->
  (click_counter b < 3 \/
   negb ((0 <? last_release_time b) &&
         (u32 (now - last_release_time b) <? ticks MULTI_CLICK_TIMEOUT_MS)) = true).
Proof.
  intros Hlen Hcc. unfold press_accepted, array_store. simpl.
  destruct ((0 <? last_release_time b) && _) eqn:E; simpl; rewrite Hlen;
    change (Z.of_nat 4) with 4.
  - destruct (Z.ltb_spec (click_counter b + 1) 4);
      destruct (Z.leb_spec 0 (click_counter b + 1)); simpl; try lia.
    + split; [intros _; left; lia | intros _; eexists; reflexivity].
    + split; [intros [b' Hb']; discriminate | intros [?|?]; [lia | discriminate]].
  - split; [intros _; right; reflexivity | intros _; eexists; reflexivity].
Qed.

(** A finalised sequence of one, two or three clicks reports exactly that
    many presses. *)
Lemma finalize_reports_count (count t0 t1 t2 t3 : Z) :
  1 <= count <= 3 ->
  exists tys, finalize_types hz count [t0; t1; t2; t3] = Ok tys /\
              foldr (fun ty acc => multiplicity ty + acc) 0 tys = count.
Proof.
  intros Hc.
  assert (count = 1 \/ count = 2 \/ count = 3) as [-> | [-> | ->]] by lia;
    unfold finalize_types; simpl.
  - eexists; split; reflexivity.
  - destruct (_ <? _); eexists; split; reflexivity.
  - repeat (destruct (_ <? _); simpl); eexists; split; reflexivity.
Qed.

(** C4. When a pending sequence of three clicks times out, the events sent
    are: one TRIPLE if press 3 came less than 700 ms after press 1;
    otherwise DOUBLE then SINGLE if press 2 came less than 500 ms after
    press 1; otherwise SINGLE then DOUBLE if press 3 came less than 500 ms
    after press 2; otherwise three SINGLEs.  Every event carries the
    button's id and the current tick, and the pending sequence is cleared. *)
Theorem three_clicks_timeout (i now t0 t1 t2 t3 : Z) (b : button_tracker_t) :
  click_counter b = 3 ->
  press_times b = [t0; t1; t2; t3] ->
  sequence_timed_out hz now b = true ->
  exists tys,
    multi_click_timeout hz i now b =
      Ok (set_last_release_time 0 (set_click_counter 0 b),
          map (fun ty => button_event (u8 (i + 1)) ty now) tys) /\
    (u32 (t3 - t1) < ticks 700 -> tys = [PRESS_TRIPLE]) /\
    (ticks 700 <= u32 (t3 - t1) -> u32 (t2 - t1) < ticks 500 ->
     tys = [PRESS_DOUBLE; PRESS_SINGLE]) /\
    (ticks 700 <= u32 (t3 - t1) -> ticks 500 <= u32 (t2 - t1) ->
     u32 (t3 - t2) < ticks 500 ->
     tys = [PRESS_SINGLE; PRESS_DOUBLE]) /\
    (ticks 700 <= u32 (t3 - t1) -> ticks 500 <= u32 (t2 - t1) ->
     ticks 500 <= u32 (t3 - t2) ->
     tys = [PRESS_SINGLE; PRESS_SINGLE; PRESS_SINGLE]).
Proof.
  intros Hcount Hpt Hto.
  unfold multi_click_timeout. rewrite Hto, Hcount, Hpt.
  unfold finalize_types. simpl.
  destruct (Z.ltb_spec (u32 (t3 - t1)) (ticks 700)) as [H13|H13]; simpl.
  { exists [PRESS_TRIPLE]. repeat split; intros; first [reflexivity | lia]. }
  destruct (Z.ltb_spec (u32 (t2 - t1)) (ticks 500)) as [H12|H12]; simpl.
  { exists [PRESS_DOUBLE; PRESS_SINGLE].
    repeat split; intros; first [reflexivity | lia]. }
  destruct (Z.ltb_spec (u32 (t3 - t2)) (ticks 500)) as [H23|H23]; simpl.
  { exists [PRESS_SINGLE; PRESS_DOUBLE].
    repeat split; intros; first [reflexivity | lia]. }
  exists [PRESS_SINGLE; PRESS_SINGLE; PRESS_SINGLE].
  repeat split; intros; first [reflexivity | lia].
Qed.

(** C6. An accepted release (the raw level reads released for the fourth
    iteration in a row while the stable state is pressed) of a press held
    for at least 1500 ms sends exactly one LONG event in that very
    iteration, whatever the click count and the last release time were,
    and leaves both at 0. *)
Theorem long_press_sends_long (i now level : Z) (b : button_tracker_t) :
  level <> 0 ->
  last_state b = true ->
  DEBOUNCE_TICKS <= debounce_counter b + 1 ->
  ticks LONG_PRESS_MIN_MS <= u32 (now - press_start_time b) ->
  button_poll hz i now level b =
    Ok (button_tracker (pin b) false 0 (press_start_time b) 0 0 (press_times b),
        [button_event (u8 (i + 1)) PRESS_LONG now]).
Proof.
  intros Hlevel Hstate Hdeb Hdur.
  unfold button_poll, debounce.
  apply Z.eqb_neq in Hlevel. rewrite Hlevel, Hstate. simpl.
  apply Z.leb_le in Hdeb. rewrite Hdeb. simpl.
  unfold release_accepted. simpl.
  apply Z.leb_le in Hdur. rewrite Hdur. simpl.
  reflexivity.
Qed.

End ButtonInput_facts.

(** C4, at 1000 Hz: presses at ticks 20, 60 and 100 are one TRIPLE; presses
    at 20, 60 and 900 are DOUBLE then SINGLE. *)
Lemma three_clicks_timeout_witness :
  multi_click_timeout 1000 0 820 (button_tracker 21 false 0 100 120 3 [0; 20; 60; 100]) =
    Ok (button_tracker 21 false 0 100 0 0 [0; 20; 60; 100],
        [button_event 1 PRESS_TRIPLE 820]) /\
  multi_click_timeout 1000 0 1620 (button_tracker 21 false 0 900 920 3 [0; 20; 60; 900]) =
    Ok (button_tracker 21 false 0 900 0 0 [0; 20; 60; 900],
        [button_event 1 PRESS_DOUBLE 1620; button_event 1 PRESS_SINGLE 1620]).
Proof.
  split.
  - destruct (three_clicks_timeout 1000 0 820 0 20 60 100
                (button_tracker 21 false 0 100 120 3 [0; 20; 60; 100])
                eq_refl eq_refl eq_refl) as (tys & Hrun & Htriple & _).
    rewrite Hrun, Htriple; [reflexivity | vm_compute; reflexivity].
  - destruct (three_clicks_timeout 1000 0 1620 0 20 60 900
                (button_tracker 21 false 0 900 920 3 [0; 20; 60; 900])
                eq_refl eq_refl eq_refl) as (tys & Hrun & _ & Hds & _).
    rewrite Hrun, Hds; [reflexivity | vm_compute; discriminate | vm_compute; reflexivity].
Defined.

(** C6, at 1000 Hz: a press held from tick 100 to tick 1700 while two
    clicks were pending. *)
Lemma long_press_sends_long_witness :
  button_poll 1000 2 1700 1 (button_tracker 47 true 3 100 60 2 [0; 20; 100; 0]) =
    Ok (button_tracker 47 false 0 100 0 0 [0; 20; 100; 0],
        [button_event 3 PRESS_LONG 1700]).
Proof.
  apply (long_press_sends_long 1000 2 1700 1 (button_tracker 47 true 3 100 60 2 [0; 20; 100; 0])).
  - discriminate.
  - reflexivity.
  - vm_compute; discriminate.
  - vm_compute; discriminate.
Defined.

(** C2. Four short presses in a row, each accepted within the click window
    of the previous release (1000 Hz; presses accepted at ticks 20, 60, 100
    and 140).  The first three are stored at indices 1, 2 and 3; the fourth
    raises the click count to 4 and stores at index 4 of the four-element
    array, which is outside it. *)
Theorem fourth_press_stores_out_of_bounds :
  run_button 1000 0 (take 27 four_short_presses) (tracker_init BTN1_PIN) =
    Ok (button_tracker BTN1_PIN false 3 100 120 3 [0; 20; 60; 100], []) /\
  button_poll 1000 0 140 0 (button_tracker BTN1_PIN false 3 100 120 3 [0; 20; 60; 100]) =
    Undefined (OutOfBounds 4) /\
  run_button 1000 0 four_short_presses (tracker_init BTN1_PIN) =
    Undefined (OutOfBounds 4).
Proof. repeat split; vm_compute; reflexivity. Qed.

(** C3. Two physical short presses for which one SINGLE is all that is ever
    sent (1000 Hz): the second press is accepted in the iteration at which
    the click window of the first expires, so the press branch restarts the
    count at 1 and clears the release time before the timeout check of that
    iteration looks at them.  And a finalised sequence whose count is 4
    sends nothing at all, whatever the stored press times. *)
Theorem presses_lost :
  presses_accepted 1000 0 two_presses_at_window_edge (tracker_init BTN1_PIN) = 2 /\
  run_button 1000 0 two_presses_at_window_edge (tracker_init BTN1_PIN) =
    Ok (button_tracker BTN1_PIN false 0 740 0 0 [0; 740; 0; 0],
        [button_event 1 PRESS_SINGLE 1460]) /\
  presses_reported [button_event 1 PRESS_SINGLE 1460] = 1 /\
  (forall (hz : Z) (pt : list Z), finalize_types hz 4 pt = Ok []).
Proof.
  split; [vm_compute; reflexivity|].
  split; [vm_compute; reflexivity|].
  split; reflexivity.
Qed.

(** * Properties of the menu state machine *)

Section MenuLogic_facts.

Import MenuLogic.

Lemma patterns_defined (idx : Z) :
  0 <= idx <= 3 -> exists p, array_load patterns idx = Ok p /\ 0 <= p < 2 ^ 16.
Proof.
  intros H.
  assert (idx = 0 \/ idx = 1 \/ idx = 2 \/ idx = 3) as [-> | [-> | [-> | ->]]] by lia;
    eexists; (split; [reflexivity | lia]).
Qed.

(** Events keep the locals in range. *)
Lemma handle_event_in_range (m : locals) (ev : button_event_t) :
  in_range m -> in_range (fst (handle_event m ev)).
Proof.
  destruct m as [s sel b a cp ip ta tp].
  unfold in_range, handle_event, power_off_event, switch_state, enter_submenu. simpl.
  intros (Hsel & Hb & Hcp & Hip & Htp).
  destruct s; simpl;
    repeat match goal with
      | |- context [is_press ?e ?i ?t] => destruct (is_press e i t); simpl
      end;
    unfold MENU_ITEMS_COUNT, NUM_PATTERNS, BRIGHTNESS_MAX, BRIGHTNESS_MIN, u8;
    repeat match goal with
      | |- context [?x =? ?k] => destruct (Z.eqb_spec x k); simpl
      | |- context [?x <? ?k] => destruct (Z.ltb_spec x k); simpl
      | |- context [if ?c then _ else _] => destruct c; simpl
      end;
    repeat split; try lia;
    try (rewrite Z.rem_mod_nonneg by lia);
    try (apply Z.mod_pos_bound; lia);
    try (rewrite Z.mod_small by lia; lia);
    try (pose proof (Z.mod_pos_bound (sel + 1) 4 ltac:(lia)); lia);
    try (pose proof (Z.mod_pos_bound (sel - 1 + 4) 4 ltac:(lia)); lia);
    try (pose proof (Z.mod_pos_bound (tp + 1) 4 ltac:(lia)); lia);
    try (pose proof (Z.mod_pos_bound (ip + 1) 2 ltac:(lia)); lia).
Qed.

(** In range, the pattern to show is defined and fits 16 bits. *)
Lemma display_pattern_defined (m : locals) :
  in_range m -> exists p, display_pattern m = Ok p /\ 0 <= p < 2 ^ 16.
Proof.
  destruct m as [s sel b a cp ip ta tp]. unfold in_range. simpl.
  intros (Hsel & Hb & Hcp & Hip & Htp).
  destruct s; unfold display_pattern; simpl.
  - assert (sel = 0 \/ sel = 1 \/ sel = 2 \/ sel = 3) as [-> | [-> | [-> | ->]]] by lia;
      eexists; (split; [reflexivity | vm_compute; split; [discriminate | reflexivity]]).
  - assert (b = 0 \/ b = 1 \/ b = 2 \/ b = 3 \/ b = 4 \/ b = 5 \/ b = 6 \/ b = 7 \/
            b = 8 \/ b = 9 \/ b = 10)
      as [-> | [-> | [-> | [-> | [-> | [-> | [-> | [-> | [-> | [-> | ->]]]]]]]]]] by lia;
      eexists; (split; [reflexivity | vm_compute; split; [discriminate | reflexivity]]).
  - destruct ta; eexists; (split; [reflexivity | lia]).
  - apply patterns_defined; lia.
  - apply patterns_defined; lia.
  - destruct (ip =? 0); eexists; (split; [reflexivity | lia]).
  - eexists; (split; [reflexivity | lia]).
  - eexists; (split; [reflexivity | lia]).
Qed.

(** In range, an iteration on an event is defined, sends at most one
    update, and stays in range. *)
Lemma MenuLogic_iter_event_defined (m : locals) (ev : button_event_t) :
  in_range m ->
  exists m' sent,
    MenuLogic_iter m (Event ev) = Ok (m', sent) /\ in_range m' /\
    (length sent <= 1)%nat.
Proof.
  intros Hm. pose proof (handle_event_in_range m ev Hm) as Hm'.
  unfold MenuLogic_iter. destruct (handle_event m ev) as [m' upd]. simpl in Hm'.
  destruct upd; simpl.
  - destruct (display_pattern_defined m' Hm') as (p & -> & _). simpl.
    eexists _, _. split; [reflexivity|]. split; [assumption | simpl; lia].
  - eexists _, _. split; [reflexivity|]. split; [assumption | simpl; lia].
Qed.

(** In range, the only iteration that is not defined is a timeout of a
    receive that cannot time out. *)
Lemma MenuLogic_iter_in_range (m : locals) (r : received) :
  in_range m ->
  match MenuLogic_iter m r with
  | Ok (m', _) => in_range m'
  | Undefined f => f = NeverReturns
  end.
Proof.
  intros Hm. destruct r as [ev|].
  - destruct (MenuLogic_iter_event_defined m ev Hm) as (m' & sent & -> & Hm' & _).
    exact Hm'.
  - destruct m as [s sel b a cp ip ta tp]. destruct Hm as (Hsel & Hb & Hcp & Hip & Htp).
    simpl in *. destruct s; simpl; try reflexivity.
    assert (Hn : 0 <= Z.rem (cp + 1) NUM_PATTERNS <= 3).
    { unfold NUM_PATTERNS. rewrite Z.rem_mod_nonneg by lia.
      pose proof (Z.mod_pos_bound (cp + 1) 4 ltac:(lia)). lia. }
    destruct (patterns_defined _ Hn) as (p & -> & _). simpl.
    repeat split; simpl; lia.
Qed.

Lemma MenuLogic_run_in_range (rs : list received) (m : locals) :
  in_range m ->
  match MenuLogic_run m rs with
  | Ok (m', _) => in_range m'
  | Undefined f => f = NeverReturns
  end.
Proof.
  revert m. induction rs as [|r rs IH]; intros m Hm; simpl; [exact Hm|].
  pose proof (MenuLogic_iter_in_range m r Hm) as H1.
  destruct (MenuLogic_iter m r) as [[m1 sent1]|f]; simpl; [|exact H1].
  specialize (IH m1 H1).
  destruct (MenuLogic_run m1 rs) as [[m2 sent2]|f]; simpl; assumption.
Qed.

Lemma locals_init_in_range : in_range locals_init.
Proof. unfold in_range, locals_init; simpl; lia. Qed.

(** Brightness alone stays in 0..10, whatever the other locals hold. *)
Lemma handle_event_brightness (m : locals) (ev : button_event_t) :
  0 <= brightness m <= 10 -> 0 <= brightness (fst (handle_event m ev)) <= 10.
Proof.
  destruct m as [s sel b a cp ip ta tp].
  unfold handle_event, power_off_event, switch_state, enter_submenu. simpl.
  intros Hb.
  destruct s; simpl;
    repeat match goal with
      | |- context [is_press ?e ?i ?t] => destruct (is_press e i t); simpl
      end;
    unfold BRIGHTNESS_MAX, BRIGHTNESS_MIN, u8;
    repeat match goal with
      | |- context [?x =? ?k] => destruct (Z.eqb_spec x k); simpl
      | |- context [?x <? ?k] => destruct (Z.ltb_spec x k); simpl
      | |- context [if ?c then _ else _] => destruct c; simpl
      end;
    try lia; rewrite Z.mod_small by lia; lia.
Qed.

Lemma MenuLogic_iter_brightness (m m' : locals) (r : received)
    (sent : list display_info_t) :
  0 <= brightness m <= 10 ->
  MenuLogic_iter m r = Ok (m', sent) ->
  0 <= brightness m' <= 10.
Proof.
  intros Hb. destruct r as [ev|]; simpl.
  - pose proof (handle_event_brightness m ev Hb) as H.
    destruct (handle_event m ev) as [m1 upd]. simpl in H.
    destruct upd; simpl.
    + destruct (display_pattern m1); simpl; intros E; [|discriminate].
      injection E as <- _. exact H.
    + intros E. injection E as <- _. exact H.
  - destruct (state m); try discriminate.
    destruct (array_load _ _); simpl; intros E; [|discriminate].
    injection E as <- _. exact Hb.
Qed.

Lemma MenuLogic_run_brightness (rs : list received) (m m' : locals)
    (sent : list display_info_t) :
  0 <= brightness m <= 10 ->
  MenuLogic_run m rs = Ok (m', sent) ->
  0 <= brightness m' <= 10.
Proof.
  revert m sent. induction rs as [|r rs IH]; intros m sent Hb; simpl.
  - intros E. injection E as <- _. exact Hb.
  - destruct (MenuLogic_iter m r) as [[m1 sent1]|f] eqn:E1; simpl; [|discriminate].
    destruct (MenuLogic_run m1 rs) as [[m2 sent2]|f] eqn:E2; simpl; [|discriminate].
    intros E. injection E as <- _.
    eapply IH; [|exact E2]. eapply MenuLogic_iter_brightness; eassumption.
Qed.

(** C1. In [STATE_RESET] a double press of button 2 sets brightness to 5,
    auto mode to false and the pattern index to 0 and goes back to the main
    menu, but leaves [selected_item] as it was.  [STATE_RESET] is entered
    with item 3 selected: from power-up, button 3 once, button 2 once, then
    the double press, and the menu comes back with item 3 selected (LED 4
    lit, pattern 8) rather than item 0. *)
Theorem reset_keeps_selected_item
    (sel b cp ip tp t : Z) (a ta : bool) :
  handle_event (Locals STATE_RESET sel b a cp ip ta tp)
               (button_event 2 PRESS_DOUBLE t) =
    (Locals STATE_MAIN_MENU sel 5 false 0 ip ta tp, true) /\
  MenuLogic_iter (Locals STATE_RESET 3 b a cp ip ta tp)
                 (Event (button_event 2 PRESS_DOUBLE t)) =
    Ok (Locals STATE_MAIN_MENU 3 5 false 0 ip ta tp, [display_info 8 5]) /\
  MenuLogic_run locals_init
    [Event (button_event 3 PRESS_SINGLE 0);
     Event (button_event 2 PRESS_SINGLE 0);
     Event (button_event 2 PRESS_DOUBLE 0)] =
    Ok (Locals STATE_MAIN_MENU 3 5 false 0 0 false 0,
        [display_info 8 5; display_info 0xAAAA 5; display_info 8 5]).
Proof. repeat split. Qed.

(** C5. An event that the transition table does not list for the current
    state changes nothing: the state and all seven context fields are as
    before, and no display update is sent. *)
Theorem unlisted_event_ignored (m : locals) (ev : button_event_t) :
  listed (state m) (button_id ev) (type ev) = false ->
  MenuLogic_iter m (Event ev) = Ok (m, []).
Proof.
  destruct m as [s sel b a cp ip ta tp], ev as [id ty ts].
  unfold MenuLogic_iter, handle_event, power_off_event, switch_state, is_press.
  simpl.
  destruct s, ty; simpl; intros H;
    repeat match goal with
      | H : context [?x =? ?k] |- _ =>
          destruct (Z.eqb_spec x k); simpl in H; try discriminate H
      end;
    repeat match goal with
      | |- context [?x =? ?k] => destruct (Z.eqb_spec x k); simpl; try lia
      end;
    reflexivity.
Qed.

(** C7. In [STATE_AUTO_MODE] the receive waits 2000 ms; when it times out,
    the pattern index (in 0..3) becomes (index + 1) mod 4, exactly one
    update is sent, holding the pattern table's entry at the new index and
    the current brightness, and the state is still [STATE_AUTO_MODE].  In
    every other state the receive waits without a time limit, so no
    timeout happens there. *)
Theorem auto_mode_timeout (hz : Z) (m : locals) :
  state m = STATE_AUTO_MODE ->
  0 <= current_pattern_idx m <= 3 ->
  let next := (current_pattern_idx m + 1) mod 4 in
  receive_wait hz (state m) = Some (pdMS_TO_TICKS hz 2000) /\
  (exists p,
     patterns !! Z.to_nat next = Some p /\
     MenuLogic_iter m Timeout =
       Ok (set_current_pattern_idx next m, [display_info p (brightness m)])) /\
  state (set_current_pattern_idx next m) = STATE_AUTO_MODE /\
  (forall s, s <> STATE_AUTO_MODE -> receive_wait hz s = None).
Proof.
  destruct m as [s sel b a cp ip ta tp]. simpl. intros -> Hcp.
  split; [reflexivity|]. split; [|split; [reflexivity|]].
  - unfold MenuLogic_iter, NUM_PATTERNS. simpl.
    rewrite Z.rem_mod_nonneg by lia.
    assert (cp = 0 \/ cp = 1 \/ cp = 2 \/ cp = 3) as [-> | [-> | [-> | ->]]] by lia;
      eexists; split; reflexivity.
  - intros s Hs. destruct s; try reflexivity. contradiction.
Qed.

(** C8. In [STATE_BRIGHTNESS], with brightness in 0..10, a single press of
    button 2 sets brightness to min(brightness + 1, 10) and a single press
    of button 3 sets it to max(brightness - 1, 0); each sends one update
    with the new brightness.  From there on brightness stays in 0..10
    whatever is received.  From 5, five presses of button 2 reach 10 and a
    sixth stays at 10; five presses of button 3 reach 0 and a sixth stays
    at 0. *)
Theorem brightness_clamped (m : locals) (t : Z) :
  state m = STATE_BRIGHTNESS ->
  0 <= brightness m <= 10 ->
  let up := Event (button_event 2 PRESS_SINGLE t) in
  let down := Event (button_event 3 PRESS_SINGLE t) in
  let hi := Z.min (brightness m + 1) 10 in
  let lo := Z.max (brightness m - 1) 0 in
  MenuLogic_iter m up =
    Ok (set_brightness hi m, [display_info (2 ^ hi - 1) hi]) /\
  MenuLogic_iter m down =
    Ok (set_brightness lo m, [display_info (2 ^ lo - 1) lo]) /\
  (forall rs m' sent,
     MenuLogic_run m rs = Ok (m', sent) -> 0 <= brightness m' <= 10) /\
  (exists sent, MenuLogic_run (set_brightness 5 m) (repeat up 5) =
                  Ok (set_brightness 10 m, sent)) /\
  (exists sent, MenuLogic_run (set_brightness 5 m) (repeat up 6) =
                  Ok (set_brightness 10 m, sent)) /\
  (exists sent, MenuLogic_run (set_brightness 5 m) (repeat down 5) =
                  Ok (set_brightness 0 m, sent)) /\
  (exists sent, MenuLogic_run (set_brightness 5 m) (repeat down 6) =
                  Ok (set_brightness 0 m, sent)).
Proof.
  destruct m as [s sel b a cp ip ta tp]. simpl. intros -> Hb.
  split; [|split; [|split]].
  - assert (b = 0 \/ b = 1 \/ b = 2 \/ b = 3 \/ b = 4 \/ b = 5 \/ b = 6 \/ b = 7 \/
            b = 8 \/ b = 9 \/ b = 10)
      as [-> | [-> | [-> | [-> | [-> | [-> | [-> | [-> | [-> | [-> | ->]]]]]]]]]] by lia;
      reflexivity.
  - assert (b = 0 \/ b = 1 \/ b = 2 \/ b = 3 \/ b = 4 \/ b = 5 \/ b = 6 \/ b = 7 \/
            b = 8 \/ b = 9 \/ b = 10)
      as [-> | [-> | [-> | [-> | [-> | [-> | [-> | [-> | [-> | [-> | ->]]]]]]]]]] by lia;
      reflexivity.
  - intros rs m' sent. apply MenuLogic_run_brightness. exact Hb.
  - repeat split; eexists; reflexivity.
Qed.

(** The main menu's pattern has a single bit set: two neighbouring bits
    are never both set in it. *)
Lemma single_bit_no_neighbours (sel k : Z) :
  0 <= sel -> 0 <= k < 15 ->
  Z.testbit (u16 (u32 (Z.shiftl 1 sel))) k = true ->
  Z.testbit (u16 (u32 (Z.shiftl 1 sel))) (k + 1) = false.
Proof.
  intros Hsel Hk. unfold u16, u32.
  rewrite !Z.mod_pow2_bits_low by lia.
  rewrite Z.shiftl_1_l, !Z.pow2_bits_eqb by lia.
  intros H. apply Z.eqb_eq in H. subst. apply Z.eqb_neq. lia.
Qed.

Lemma bits_of_3 (n : Z) : Z.testbit 0x0003 n = true <-> 0 <= n <= 1.
Proof.
  destruct n as [|[p|p|]|p]; simpl; split; intros H; try reflexivity;
    try discriminate; lia.
Qed.

Lemma bits_of_12 (n : Z) : Z.testbit 0x000C n = true <-> 2 <= n <= 3.
Proof.
  destruct n as [|[[p|p|]|[p|p|]|]|p]; simpl; split; intros H; try reflexivity;
    try discriminate; lia.
Qed.

(** C9. The pattern shown in [STATE_MODE_SELECT] is bits 0 and 1 when the
    staged mode is Manual and bits 2 and 3 when it is Auto; the two have no
    bit in common, and no pattern of [STATE_MAIN_MENU] (a single bit at
    [selected_item]) equals either of them. *)
Theorem mode_select_patterns_disjoint (sel b cp ip tp : Z) (a : bool) :
  exists manual_bar auto_bar,
    display_pattern (Locals STATE_MODE_SELECT sel b a cp ip false tp) = Ok manual_bar /\
    display_pattern (Locals STATE_MODE_SELECT sel b a cp ip true tp) = Ok auto_bar /\
    Z.land manual_bar auto_bar = 0 /\
    (forall n, Z.testbit manual_bar n = true <-> 0 <= n <= 1) /\
    (forall n, Z.testbit auto_bar n = true <-> 2 <= n <= 3) /\
    (forall sel' b' cp' ip' tp' a' ta',
       display_pattern (Locals STATE_MAIN_MENU sel' b' a' cp' ip' ta' tp') <> Ok manual_bar /\
       display_pattern (Locals STATE_MAIN_MENU sel' b' a' cp' ip' ta' tp') <> Ok auto_bar).
Proof.
  exists 0x0003, 0x000C.
  split; [reflexivity|]. split; [reflexivity|]. split; [reflexivity|].
  split; [exact bits_of_3|]. split; [exact bits_of_12|].
  intros sel' b' cp' ip' tp' a' ta'. unfold display_pattern, shl1. simpl.
  destruct (Z.leb_spec 0 sel'); simpl; [|split; discriminate].
  destruct (sel' <? 32); simpl; [|split; discriminate].
  split; intros E; injection E as E.
  - pose proof (single_bit_no_neighbours sel' 0 ltac:(lia) ltac:(lia)) as Hn.
    rewrite E in Hn. specialize (Hn eq_refl). discriminate Hn.
  - pose proof (single_bit_no_neighbours sel' 2 ltac:(lia) ltac:(lia)) as Hn.
    rewrite E in Hn. specialize (Hn eq_refl). discriminate Hn.
Qed.

(** C5, on an instance: a triple press of button 2 in the brightness
    menu. *)
Lemma unlisted_event_ignored_witness :
  MenuLogic_iter (Locals STATE_BRIGHTNESS 0 7 true 2 1 true 3)
                 (Event (button_event 2 PRESS_TRIPLE 1234)) =
    Ok (Locals STATE_BRIGHTNESS 0 7 true 2 1 true 3, []).
Proof.
  apply (unlisted_event_ignored (Locals STATE_BRIGHTNESS 0 7 true 2 1 true 3)
           (button_event 2 PRESS_TRIPLE 1234)).
  reflexivity.
Defined.

(** C7, on an instance: at 1000 Hz, from pattern index 3 the timeout wraps
    to index 0 and shows 0xFFFF at brightness 7. *)
Lemma auto_mode_timeout_witness :
  receive_wait 1000 STATE_AUTO_MODE = Some 2000 /\
  MenuLogic_iter (Locals STATE_AUTO_MODE 1 7 true 3 0 true 0) Timeout =
    Ok (Locals STATE_AUTO_MODE 1 7 true 0 0 true 0, [display_info 0xFFFF 7]).
Proof.
  destruct (auto_mode_timeout 1000 (Locals STATE_AUTO_MODE 1 7 true 3 0 true 0)
              eq_refl ltac:(simpl; lia)) as (Hwait & (p & Hp & Hiter) & _).
  split; [exact Hwait|].
  rewrite Hiter. injection Hp as <-. reflexivity.
Defined.

(** C8, on an instance: at brightness 10 button 2 leaves 10, and button 3
    gives 9. *)
Lemma brightness_clamped_witness :
  MenuLogic_iter (Locals STATE_BRIGHTNESS 0 10 false 0 0 false 0)
                 (Event (button_event 2 PRESS_SINGLE 0)) =
    Ok (Locals STATE_BRIGHTNESS 0 10 false 0 0 false 0, [display_info 1023 10]) /\
  MenuLogic_iter (Locals STATE_BRIGHTNESS 0 10 false 0 0 false 0)
                 (Event (button_event 3 PRESS_SINGLE 0)) =
    Ok (Locals STATE_BRIGHTNESS 0 9 false 0 0 false 0, [display_info 511 9]).
Proof.
  destruct (brightness_clamped (Locals STATE_BRIGHTNESS 0 10 false 0 0 false 0) 0
              eq_refl ltac:(simpl; lia)) as (Hup & Hdown & _).
  split; [exact Hup | exact Hdown].
Defined.

End MenuLogic_facts.

(** * Properties of the display task *)

Section DisplayManager_facts.

(** In 0..10 no step of the duty computation wraps. *)
Lemma duty_of_exact (b : Z) :
  0 <= b <= 10 -> duty_of b = 1023 * (10 - b) / 10.
Proof.
  intros Hb. unfold duty_of, u32. simpl Z.shiftl.
  rewrite (Z.mod_small (1024 - 1)) by lia.
  rewrite (Z.mod_small (10 - b)) by lia.
  rewrite Z.mod_small by nia.
  reflexivity.
Qed.

(** The pattern is shifted out under the mutex on every update. *)
Lemma DisplayManager_iter_shifts (current_brightness : Z) (info : display_info_t) :
  exists rest,
    snd (DisplayManager_iter current_brightness info) =
      xSemaphoreTake :: shift_out_pattern (pattern info) ++ rest /\
    last rest = Some xSemaphoreGive.
Proof.
  unfold DisplayManager_iter.
  destruct (negb _); simpl; eexists; split; reflexivity.
Qed.

Lemma duty_writes_app (l1 l2 : list hw_call) :
  duty_writes (l1 ++ l2) = duty_writes l1 ++ duty_writes l2.
Proof. unfold duty_writes. apply flat_map_app. Qed.

Lemma duty_writes_shift_out (p : Z) : duty_writes (shift_out_pattern p) = [].
Proof. reflexivity. Qed.

(** C10. For a brightness b in 0..10 the display task writes the duty
    1023 * (10 - b) / 10 (integer division), which is 0 for b = 10 and
    1023 for b = 0; it writes it, once, exactly when b differs from the
    brightness applied before, and then remembers b. *)
Theorem duty_cycle_inverted (current_brightness : Z) (info : display_info_t) :
  0 <= brightness info <= 10 ->
  let b := brightness info in
  let applied := fst (DisplayManager_iter current_brightness info) in
  let calls := snd (DisplayManager_iter current_brightness info) in
  duty_of b = 1023 * (10 - b) / 10 /\
  0 <= duty_of b <= 1023 /\
  duty_of 10 = 0 /\ duty_of 0 = 1023 /\
  applied = b /\
  (b <> current_brightness -> duty_writes calls = [1023 * (10 - b) / 10]) /\
  (b = current_brightness -> duty_writes calls = []).
Proof.
  intros Hb. simpl. unfold DisplayManager_iter.
  pose proof (duty_of_exact _ Hb) as Hd.
  assert (Hr : 0 <= duty_of (brightness info) <= 1023).
  { rewrite Hd. split.
    - apply Z.div_pos; nia.
    - apply Z.div_le_upper_bound; nia. }
  split; [exact Hd|]. split; [exact Hr|].
  split; [reflexivity|]. split; [reflexivity|].
  destruct (Z.eqb_spec (brightness info) current_brightness) as [Heq|Hne];
    cbn [negb fst snd].
  - split; [symmetry; exact Heq|]. split.
    + intros Hne. contradiction.
    + intros _. rewrite duty_writes_app.
      change (duty_writes (xSemaphoreTake :: shift_out_pattern (pattern info)))
        with (duty_writes (shift_out_pattern (pattern info))).
      rewrite duty_writes_shift_out. reflexivity.
  - split; [reflexivity|]. split.
    + intros _. rewrite !duty_writes_app.
      change (duty_writes (xSemaphoreTake :: shift_out_pattern (pattern info)))
        with (duty_writes (shift_out_pattern (pattern info))).
      rewrite duty_writes_shift_out, <- Hd. reflexivity.
    + intros Heq. contradiction.
Qed.

(** C10, on instances: the first update after start-up (nothing applied
    yet, [current_brightness] is -1) at brightness 5 writes duty 511; a
    second update at brightness 5 writes nothing. *)
Lemma duty_cycle_inverted_witness :
  duty_writes (snd (DisplayManager_iter (-1) (display_info 1 5))) = [511] /\
  duty_writes (snd (DisplayManager_iter 5 (display_info 2 5))) = [].
Proof.
  split.
  - pose proof (duty_cycle_inverted (-1) (display_info 1 5) ltac:(simpl; lia)) as H.
    simpl in H. destruct H as (_ & _ & _ & _ & _ & Hw & _).
    apply Hw. discriminate.
  - pose proof (duty_cycle_inverted 5 (display_info 2 5) ltac:(simpl; lia)) as H.
    simpl in H. destruct H as (_ & _ & _ & _ & _ & _ & Hs).
    apply Hs. reflexivity.
Defined.

End DisplayManager_facts.

(** * Further properties of the button classifier *)

Section ButtonInput_invariants.

Variable hz : Z.

Local Abbreviation ticks := (pdMS_TO_TICKS hz).

(** With its four slots in place, finalising a sequence reads inside the
    array and sends at most three events. *)
Lemma finalize_types_defined (count : Z) (pt : list Z) :
  length pt = 4%nat ->
  exists tys, finalize_types hz count pt = Ok tys /\ (length tys <= 3)%nat.
Proof.
  intros Hlen.
  destruct pt as [|t0 [|t1 [|t2 [|t3 [|t4 pt]]]]]; try discriminate Hlen.
  unfold finalize_types.
  destruct (count =? 1); [eexists; split; [reflexivity | simpl; lia]|].
  destruct (count =? 2); simpl.
  { destruct (_ <? _); eexists; (split; [reflexivity | simpl; lia]). }
  destruct (count =? 3); simpl.
  { repeat (destruct (_ <? _); simpl); eexists; (split; [reflexivity | simpl; lia]). }
  eexists; split; [reflexivity | simpl; lia].
Qed.

(** The timeout check only ever clears the pending sequence. *)
Lemma multi_click_timeout_shape (i now : Z) (b : button_tracker_t) :
  length (press_times b) = 4%nat ->
  exists sent,
    (length sent <= 3)%nat /\
    Forall (fun ev => button_id ev = u8 (i + 1) /\ timestamp ev = now /\
                      type ev <> PRESS_LONG) sent /\
    (multi_click_timeout hz i now b = Ok (b, sent) /\ sent = [] \/
     multi_click_timeout hz i now b =
       Ok (set_last_release_time 0 (set_click_counter 0 b), sent)).
Proof.
  intros Hlen. unfold multi_click_timeout.
  destruct (sequence_timed_out hz now b).
  - pose proof (finalize_types_defined (click_counter b) _ Hlen) as (tys & Hf & Hn).
    assert (Hnl : Forall (fun ty => ty <> PRESS_LONG) tys).
    { revert Hf. clear. destruct (press_times b) as [|t0 [|t1 [|t2 [|t3 pt]]]];
        unfold finalize_types, array_load; simpl;
        repeat match goal with
          | |- context [if ?c then _ else _] => destruct c; simpl
          end;
        intros E; try discriminate E; injection E as <-;
        repeat constructor; discriminate. }
    rewrite Hf. simpl. eexists. split; [|split; [|right; reflexivity]].
    + rewrite length_map. exact Hn.
    + apply Forall_map. eapply Forall_impl; [exact Hnl|].
      intros ty Hty. simpl. auto.
  - exists []. split; [simpl; lia|]. split; [constructor|]. left. split; reflexivity.
Qed.

Lemma press_accepted_ok (now : Z) (b b' : button_tracker_t) :
  length (press_times b) = 4%nat ->
  press_accepted hz now b = Ok b' ->
  0 <= click_counter b' <= 3 /\ length (press_times b') = 4%nat /\
  pin b' = pin b /\ last_state b' = last_state b /\
  debounce_counter b' = debounce_counter b /\
  press_start_time b' = now /\ last_release_time b' = 0 /\
  press_times b' !! Z.to_nat (click_counter b') = Some now.
Proof.
  intros Hlen. unfold press_accepted, array_store.
  destruct ((0 <? _) && _); simpl; rewrite Hlen; change (Z.of_nat 4) with 4.
  - destruct (Z.leb_spec 0 (click_counter b + 1));
      destruct (Z.ltb_spec (click_counter b + 1) 4); simpl;
      intros E; try discriminate E; injection E as <-; simpl.
    repeat split; try lia.
    + rewrite length_insert; exact Hlen.
    + apply list_lookup_insert_eq; rewrite Hlen; lia.
  - change (1 <? 4) with true. simpl.
    intros E; injection E as <-; simpl.
    repeat split; try lia.
    + rewrite length_insert; exact Hlen.
    + apply list_lookup_insert_eq; rewrite Hlen; lia.
Qed.

(** One pass of the loop body that is defined keeps the tracker well
    formed and never touches its pin. *)
Lemma button_poll_keeps_ok (i now level : Z) (b b' : button_tracker_t)
    (sent : list button_event_t) :
  tracker_ok b ->
  button_poll hz i now level b = Ok (b', sent) ->
  tracker_ok b' /\ pin b' = pin b.
Proof.
  intros (Hdc & Hcc & Hlen). unfold button_poll.
  destruct (debounce hz i now level b) as [[b1 s1]|f] eqn:Hd; simpl; [|discriminate].
  assert (H1 : tracker_ok b1 /\ pin b1 = pin b).
  { revert Hd. unfold debounce, tracker_ok.
    destruct (eqb _ _).
    - intros E. injection E as <- _. simpl. repeat split; lia.
    - simpl. unfold DEBOUNCE_TICKS.
      destruct (Z.leb_spec 4 (debounce_counter b + 1)).
      + destruct (level =? 0).
        * destruct (press_accepted _ _ _) as [b2|f] eqn:Hp; simpl; [|discriminate].
          intros E. injection E as <- _.
          apply press_accepted_ok in Hp; [|exact Hlen].
          simpl in Hp. destruct Hp as (? & ? & ? & ? & Hd2 & _).
          rewrite Hd2. repeat split; try lia; assumption.
        * unfold release_accepted. simpl.
          repeat (destruct (_ <=? _); simpl); intros E; injection E as <- _; simpl;
            repeat split; lia.
      + intros E. injection E as <- _. simpl. repeat split; lia. }
  destruct H1 as ((Hdc1 & Hcc1 & Hlen1) & Hpin1).
  destruct (multi_click_timeout_shape i now b1 Hlen1) as (s2 & _ & _ & [[-> _]| ->]);
    simpl; intros E; injection E as <- _; unfold tracker_ok; simpl;
    repeat split; try lia; assumption.
Qed.

(** X1. Over any number of iterations that are defined, the tracker stays
    well formed: the debounce counter stays in 0..3, the click count in
    0..3, the press-time array keeps its four slots; and the pin is never
    changed. *)
Theorem run_button_keeps_ok (i : Z) (samples : list (Z * Z))
    (b b' : button_tracker_t) (sent : list button_event_t) :
  tracker_ok b ->
  run_button hz i samples b = Ok (b', sent) ->
  tracker_ok b' /\ pin b' = pin b.
Proof.
  revert b sent. induction samples as [|[now level] rest IH]; intros b sent Hb; simpl.
  - intros E. injection E as <- _. split; [exact Hb | reflexivity].
  - destruct (button_poll hz i now level b) as [[b1 s1]|f] eqn:H1; simpl; [|discriminate].
    destruct (run_button hz i rest b1) as [[b2 s2]|f] eqn:H2; simpl; [|discriminate].
    intros E. injection E as <- _.
    destruct (button_poll_keeps_ok _ _ _ _ _ _ Hb H1) as (Hb1 & Hp1).
    destruct (IH _ _ Hb1 H2) as (Hb2 & Hp2).
    split; [exact Hb2 | congruence].
Qed.

(** What the debounce step sends: nothing, or one LONG that leaves no click
    pending. *)
Lemma debounce_sent (i now level : Z) (b b1 : button_tracker_t)
    (s1 : list button_event_t) :
  debounce hz i now level b = Ok (b1, s1) ->
  s1 = [] \/
  (s1 = [button_event (u8 (i + 1)) PRESS_LONG now] /\ click_counter b1 = 0).
Proof.
  unfold debounce.
  destruct (eqb _ _); [intros E; injection E as _ <-; left; reflexivity|].
  simpl. destruct (_ <=? _); [|intros E; injection E as _ <-; left; reflexivity].
  destruct (level =? 0).
  - destruct (press_accepted _ _ _); simpl; [|discriminate].
    intros E; injection E as _ <-; left; reflexivity.
  - unfold release_accepted. simpl.
    repeat (destruct (_ <=? _); simpl); intros E; injection E as <- <-; auto.
Qed.

(** What one pass of the loop body sends, with how it is tagged. *)
Lemma button_poll_sent (i now level : Z) (b b' : button_tracker_t)
    (sent : list button_event_t) :
  tracker_ok b ->
  button_poll hz i now level b = Ok (b', sent) ->
  (length sent <= 3)%nat /\
  Forall (fun ev => button_id ev = u8 (i + 1) /\ timestamp ev = now) sent /\
  (Exists (fun ev => type ev = PRESS_LONG) sent ->
   sent = [button_event (u8 (i + 1)) PRESS_LONG now]).
Proof.
  intros Hb. unfold button_poll.
  destruct (debounce hz i now level b) as [[b1 s1]|f] eqn:Hd; simpl; [|discriminate].
  assert (Hlen1 : length (press_times b1) = 4%nat).
  { revert Hd. unfold debounce.
    destruct Hb as (_ & _ & Hlen).
    destruct (eqb _ _); [intros E; injection E as <- _; exact Hlen|].
    simpl. destruct (_ <=? _); [|intros E; injection E as <- _; exact Hlen].
    destruct (level =? 0).
    - destruct (press_accepted _ _ _) as [b2|] eqn:Hpa; simpl; [|discriminate].
      intros E; injection E as <- _.
      apply press_accepted_ok in Hpa; [|exact Hlen]. apply Hpa.
    - unfold release_accepted. simpl.
      repeat (destruct (_ <=? _); simpl); intros E; injection E as <- _; exact Hlen. }
  destruct (debounce_sent _ _ _ _ _ _ Hd) as [-> | [-> Hcc]].
  - destruct (multi_click_timeout_shape i now b1 Hlen1)
      as (s2 & Hn & Hall & [[-> ->]| ->]); simpl; intros E; injection E as _ <-.
    + split; [simpl; lia|]. split; [constructor|]. intros Hex. inversion Hex.
    + split; [exact Hn|]. split.
      * eapply Forall_impl; [exact Hall|]. intros ev (? & ? & _). auto.
      * intros Hex. exfalso. apply Exists_exists in Hex as (ev & Hin & Hty).
        rewrite Forall_forall in Hall. destruct (Hall ev Hin) as (_ & _ & Hnl).
        contradiction.
  - unfold multi_click_timeout, sequence_timed_out. rewrite Hcc. simpl.
    intros E; injection E as _ <-.
    split; [simpl; lia|]. split; [repeat constructor|]. intros _. reflexivity.
Qed.

(** X3. Every event a pass of the loop body sends for button [i] carries
    the id [i + 1] (as a byte) and the tick of that pass; a pass sends at
    most three events; and a LONG is never sent together with anything
    else. *)
Theorem button_poll_events (i now level : Z) (b b' : button_tracker_t)
    (sent : list button_event_t) :
  tracker_ok b ->
  button_poll hz i now level b = Ok (b', sent) ->
  (length sent <= 3)%nat /\
  Forall (fun ev => button_id ev = u8 (i + 1) /\ timestamp ev = now) sent /\
  (Exists (fun ev => type ev = PRESS_LONG) sent ->
   sent = [button_event (u8 (i + 1)) PRESS_LONG now]).
Proof. apply button_poll_sent. Qed.

(** One pass while the new level has not yet been seen four times in a row:
    the stable state and the press data stay, and the counter grows by at
    most one. *)
Lemma button_poll_below_threshold (i now level : Z) (b : button_tracker_t) :
  tracker_ok b ->
  debounce_counter b + 1 < DEBOUNCE_TICKS ->
  exists b' sent,
    button_poll hz i now level b = Ok (b', sent) /\
    tracker_ok b' /\
    debounce_counter b' <= debounce_counter b + 1 /\
    last_state b' = last_state b /\
    press_start_time b' = press_start_time b /\
    press_times b' = press_times b /\
    Forall (fun ev => type ev <> PRESS_LONG) sent.
Proof.
  intros (Hdc & Hcc & Hlen) Hlt. unfold button_poll, debounce.
  assert (Hmc : forall b1, tracker_ok b1 ->
            exists b' sent,
              multi_click_timeout hz i now b1 = Ok (b', sent) /\
              tracker_ok b' /\ debounce_counter b' = debounce_counter b1 /\
              last_state b' = last_state b1 /\
              press_start_time b' = press_start_time b1 /\
              press_times b' = press_times b1 /\
              Forall (fun ev => type ev <> PRESS_LONG) sent).
  { intros b1 (Hdc1 & Hcc1 & Hlen1).
    destruct (multi_click_timeout_shape i now b1 Hlen1)
      as (s2 & _ & Hall & [[-> ->]| ->]); eexists _, _;
      (split; [reflexivity|]); unfold tracker_ok; simpl;
      repeat split; try lia; try assumption; try constructor.
    eapply Forall_impl; [exact Hall|]. intros ev (_ & _ & H). exact H. }
  destruct (eqb _ _).
  - destruct (Hmc (set_debounce_counter 0 b)) as (b' & s & E & Hok & Hd & Hl & Hp & Ht & Hs).
    { unfold tracker_ok; simpl; repeat split; lia. }
    simpl. rewrite E. simpl. exists b', s. simpl in *.
    repeat split; try assumption; try apply Hok; lia.
  - simpl. destruct (Z.leb_spec DEBOUNCE_TICKS (debounce_counter b + 1)); [lia|].
    destruct (Hmc (set_debounce_counter (debounce_counter b + 1) b))
      as (b' & s & E & Hok & Hd & Hl & Hp & Ht & Hs).
    { unfold tracker_ok, DEBOUNCE_TICKS in *; simpl; repeat split; lia. }
    simpl. rewrite E. simpl. exists b', s. simpl in *.
    repeat split; try assumption; try apply Hok; lia.
Qed.

(** X2. Contact bounce is rejected: whatever levels are sampled, fewer
    iterations than it takes the debounce counter to reach 4 never change
    the stable state, never start or time a press, and send no LONG; no
    press is accepted in them. *)
Theorem short_bounce_rejected (i : Z) (samples : list (Z * Z)) (b : button_tracker_t) :
  tracker_ok b ->
  debounce_counter b + Z.of_nat (length samples) < DEBOUNCE_TICKS ->
  exists b' sent,
    run_button hz i samples b = Ok (b', sent) /\
    last_state b' = last_state b /\
    press_start_time b' = press_start_time b /\
    press_times b' = press_times b /\
    Forall (fun ev => type ev <> PRESS_LONG) sent /\
    presses_accepted hz i samples b = 0.
Proof.
  revert b. induction samples as [|[now level] rest IH]; intros b Hb Hlt.
  - exists b, []. simpl. repeat split; constructor.
  - simpl length in Hlt.
    destruct (button_poll_below_threshold i now level b Hb ltac:(lia))
      as (b1 & s1 & E1 & Hb1 & Hd1 & Hl1 & Hp1 & Ht1 & Hs1).
    destruct (IH b1 Hb1 ltac:(lia)) as (b2 & s2 & E2 & Hl2 & Hp2 & Ht2 & Hs2 & Hn2).
    exists b2, (s1 ++ s2). simpl. rewrite E1. simpl. rewrite E2. simpl.
    repeat split; try congruence.
    + apply Forall_app. split; assumption.
    + rewrite Hn2.
      destruct (Z.leb_spec DEBOUNCE_TICKS (debounce_counter b + 1)); [lia|].
      rewrite andb_false_r. reflexivity.
Qed.

(** X4. An accepted release of a press that was neither short nor long
    (longer than 300 ms, shorter than 1500 ms) sends nothing and clears the
    pending sequence: the clicks counted before it are dropped without an
    event. *)
Theorem medium_press_discards_sequence (i now level : Z) (b : button_tracker_t) :
  level <> 0 ->
  last_state b = true ->
  DEBOUNCE_TICKS <= debounce_counter b + 1 ->
  ticks SHORT_PRESS_MAX_MS < u32 (now - press_start_time b) < ticks LONG_PRESS_MIN_MS ->
  button_poll hz i now level b =
    Ok (button_tracker (pin b) false 0 (press_start_time b) 0 0 (press_times b), []).
Proof.
  intros Hlevel Hstate Hdeb [Hlo Hhi].
  unfold button_poll, debounce.
  apply Z.eqb_neq in Hlevel. rewrite Hlevel, Hstate. simpl.
  apply Z.leb_le in Hdeb. rewrite Hdeb. simpl.
  unfold release_accepted. simpl.
  destruct (Z.leb_spec (ticks LONG_PRESS_MIN_MS) (u32 (now - press_start_time b))); [lia|].
  destruct (Z.leb_spec (u32 (now - press_start_time b)) (ticks SHORT_PRESS_MAX_MS)); [lia|].
  reflexivity.
Qed.

(** X5. An accepted release of a short press (at most 300 ms, and the
    tick rate is such that 700 ms is at least one tick) sends nothing yet:
    it records the release tick and keeps the click count, so that the
    sequence is classified only when the click window has passed. *)
Theorem short_release_deferred (i now level : Z) (b : button_tracker_t) :
  level <> 0 ->
  last_state b = true ->
  DEBOUNCE_TICKS <= debounce_counter b + 1 ->
  u32 (now - press_start_time b) <= ticks SHORT_PRESS_MAX_MS ->
  u32 (now - press_start_time b) < ticks LONG_PRESS_MIN_MS ->
  0 < ticks MULTI_CLICK_TIMEOUT_MS ->
  button_poll hz i now level b =
    Ok (button_tracker (pin b) false 0 (press_start_time b) now
          (click_counter b) (press_times b), []).
Proof.
  intros Hlevel Hstate Hdeb Hshort Hlong Hwin.
  unfold button_poll, debounce.
  apply Z.eqb_neq in Hlevel. rewrite Hlevel, Hstate. simpl.
  apply Z.leb_le in Hdeb. rewrite Hdeb. simpl.
  unfold release_accepted. simpl.
  destruct (Z.leb_spec (ticks LONG_PRESS_MIN_MS) (u32 (now - press_start_time b))); [lia|].
  destruct (Z.leb_spec (u32 (now - press_start_time b)) (ticks SHORT_PRESS_MAX_MS)); [|lia].
  simpl. unfold multi_click_timeout, sequence_timed_out. simpl.
  rewrite Z.sub_diag. change (u32 0) with 0.
  destruct (Z.leb_spec (ticks MULTI_CLICK_TIMEOUT_MS) 0); [lia|].
  rewrite andb_false_r. reflexivity.
Qed.

Lemma presses_reported_map (id now : Z) (tys : list press_type_t) :
  presses_reported (map (fun ty => button_event id ty now) tys) =
  foldr (fun ty acc => multiplicity ty + acc) 0 tys.
Proof.
  unfold presses_reported. induction tys as [|ty tys IH]; simpl; [reflexivity|].
  rewrite IH. reflexivity.
Qed.

(** X6. When a pending sequence of one, two or three clicks times out, the
    events sent stand for exactly as many presses as were counted (a SINGLE
    for one, a DOUBLE for two, a TRIPLE for three), and the sequence is
    cleared. *)
Theorem timeout_reports_click_count (i now : Z) (b : button_tracker_t) :
  length (press_times b) = 4%nat ->
  1 <= click_counter b <= 3 ->
  sequence_timed_out hz now b = true ->
  exists sent,
    multi_click_timeout hz i now b =
      Ok (set_last_release_time 0 (set_click_counter 0 b), sent) /\
    presses_reported sent = click_counter b.
Proof.
  intros Hlen Hcc Hto. unfold multi_click_timeout. rewrite Hto.
  destruct (press_times b) as [|t0 [|t1 [|t2 [|t3 [|t4 pt]]]]]; try discriminate Hlen.
  destruct (finalize_reports_count hz (click_counter b) t0 t1 t2 t3 Hcc)
    as (tys & -> & Hsum).
  simpl. eexists. split; [reflexivity|].
  rewrite presses_reported_map. exact Hsum.
Qed.

(** X7. When a pending sequence of two clicks times out, one DOUBLE is sent
    if the second press came less than 500 ms after the first, and two
    SINGLEs otherwise; a pending sequence of one click gives one SINGLE. *)
Theorem one_or_two_clicks_timeout (i now t0 t1 t2 t3 : Z) (b : button_tracker_t) :
  1 <= click_counter b <= 2 ->
  press_times b = [t0; t1; t2; t3] ->
  sequence_timed_out hz now b = true ->
  exists tys,
    multi_click_timeout hz i now b =
      Ok (set_last_release_time 0 (set_click_counter 0 b),
          map (fun ty => button_event (u8 (i + 1)) ty now) tys) /\
    (click_counter b = 1 -> tys = [PRESS_SINGLE]) /\
    (click_counter b = 2 -> u32 (t2 - t1) < ticks 500 -> tys = [PRESS_DOUBLE]) /\
    (click_counter b = 2 -> ticks 500 <= u32 (t2 - t1) ->
     tys = [PRESS_SINGLE; PRESS_SINGLE]).
Proof.
  intros Hcc Hpt Hto. unfold multi_click_timeout. rewrite Hto, Hpt.
  assert (click_counter b = 1 \/ click_counter b = 2) as [E | E] by lia; rewrite E;
    unfold finalize_types; simpl.
  - exists [PRESS_SINGLE]. repeat split; intros; first [reflexivity | lia].
  - destruct (Z.ltb_spec (u32 (t2 - t1)) (ticks 500)); simpl.
    + exists [PRESS_DOUBLE]. repeat split; intros; first [reflexivity | lia].
    + exists [PRESS_SINGLE; PRESS_SINGLE].
      repeat split; intros; first [reflexivity | lia].
Qed.

(** X9. One iteration of the task over its three well-formed trackers, when
    defined, gives back three well-formed trackers on the same pins, and
    every event it sends carries a button id in 1..3 and the tick of the
    iteration. *)
Theorem ButtonInput_iter_events (now : Z) (gpio_get_level : Z -> Z)
    (buttons buttons' : list button_tracker_t) (sent : list button_event_t) :
  length buttons = 3%nat ->
  Forall tracker_ok buttons ->
  ButtonInput_iter hz now gpio_get_level buttons = Ok (buttons', sent) ->
  map pin buttons' = map pin buttons /\
  Forall tracker_ok buttons' /\
  (length sent <= 9)%nat /\
  Forall (fun ev => 1 <= button_id ev <= 3 /\ timestamp ev = now) sent.
Proof.
  intros Hlen Hok.
  destruct buttons as [|b1 [|b2 [|b3 [|b4 bs]]]]; try discriminate Hlen.
  apply Forall_cons in Hok as (Hb1 & Hok).
  apply Forall_cons in Hok as (Hb2 & Hok).
  apply Forall_cons in Hok as (Hb3 & _).
  unfold ButtonInput_iter. simpl.
  change (0 + 1 + 1) with 2. change (0 + 1) with 1.
  destruct (button_poll hz 0 now _ b1) as [[b1' s1]|f] eqn:E1; simpl; [|discriminate].
  destruct (button_poll hz 1 now _ b2) as [[b2' s2]|f] eqn:E2; simpl; [|discriminate].
  destruct (button_poll hz 2 now _ b3) as [[b3' s3]|f] eqn:E3; simpl; [|discriminate].
  intros E. injection E as <- <-. rewrite app_nil_r.
  destruct (button_poll_keeps_ok _ _ _ _ _ _ Hb1 E1) as (Hb1' & Hp1).
  destruct (button_poll_keeps_ok _ _ _ _ _ _ Hb2 E2) as (Hb2' & Hp2).
  destruct (button_poll_keeps_ok _ _ _ _ _ _ Hb3 E3) as (Hb3' & Hp3).
  destruct (button_poll_sent _ _ _ _ _ _ Hb1 E1) as (Hn1 & Ht1 & _).
  destruct (button_poll_sent _ _ _ _ _ _ Hb2 E2) as (Hn2 & Ht2 & _).
  destruct (button_poll_sent _ _ _ _ _ _ Hb3 E3) as (Hn3 & Ht3 & _).
  split; [simpl; congruence|].
  split; [repeat (apply List.Forall_cons; [assumption|]); apply List.Forall_nil|].
  split; [rewrite !length_app; lia|].
  repeat (apply Forall_app; split);
    (eapply Forall_impl; [eassumption|]); intros ev (Hid & Hts);
    rewrite Hid; (split; [vm_compute; split; discriminate | exact Hts]).
Qed.

End ButtonInput_invariants.

(** X1, on an instance: three short presses at 1000 Hz. *)
Lemma run_button_keeps_ok_witness :
  tracker_ok (button_tracker BTN1_PIN false 3 100 120 3 [0; 20; 60; 100]) /\
  pin (button_tracker BTN1_PIN false 3 100 120 3 [0; 20; 60; 100]) =
    pin (tracker_init BTN1_PIN).
Proof.
  apply (run_button_keeps_ok 1000 0 (take 27 four_short_presses)
           (tracker_init BTN1_PIN) _ []).
  - unfold tracker_ok; simpl; lia.
  - vm_compute; reflexivity.
Defined.

(** X2, on an instance: the line reads pressed for three iterations only. *)
Lemma short_bounce_rejected_witness :
  presses_accepted 1000 0 (hold 0 5 3) (tracker_init BTN1_PIN) = 0.
Proof.
  destruct (short_bounce_rejected 1000 0 (hold 0 5 3) (tracker_init BTN1_PIN))
    as (b' & sent & _ & _ & _ & _ & _ & Hnone).
  - unfold tracker_ok; simpl; lia.
  - vm_compute; reflexivity.
  - exact Hnone.
Defined.

(** X3, on an instance: the iteration that finalises a triple click. *)
Lemma button_poll_events_witness :
  (length [button_event 1 PRESS_TRIPLE 820] <= 3)%nat /\
  Forall (fun ev => button_id ev = u8 (0 + 1) /\ timestamp ev = 820)
         [button_event 1 PRESS_TRIPLE 820] /\
  (Exists (fun ev => type ev = PRESS_LONG) [button_event 1 PRESS_TRIPLE 820] ->
   [button_event 1 PRESS_TRIPLE 820] = [button_event (u8 (0 + 1)) PRESS_LONG 820]).
Proof.
  apply (button_poll_events 1000 0 820 1
           (button_tracker 21 false 0 100 120 3 [0; 20; 60; 100])
           (button_tracker 21 false 0 100 0 0 [0; 20; 60; 100])).
  - unfold tracker_ok; simpl; lia.
  - vm_compute; reflexivity.
Defined.

(** X4, on an instance: a press of 600 ms while two clicks were pending. *)
Lemma medium_press_discards_sequence_witness :
  button_poll 1000 2 700 1 (button_tracker 47 true 3 100 0 2 [0; 20; 100; 0]) =
    Ok (button_tracker 47 false 0 100 0 0 [0; 20; 100; 0], []).
Proof.
  apply (medium_press_discards_sequence 1000 2 700 1
           (button_tracker 47 true 3 100 0 2 [0; 20; 100; 0])).
  - discriminate.
  - reflexivity.
  - vm_compute; discriminate.
  - vm_compute; split; reflexivity.
Defined.

(** X5, on an instance: a press of 100 ms as the second click. *)
Lemma short_release_deferred_witness :
  button_poll 1000 2 200 1 (button_tracker 47 true 3 100 0 2 [0; 20; 100; 0]) =
    Ok (button_tracker 47 false 0 100 200 2 [0; 20; 100; 0], []).
Proof.
  apply (short_release_deferred 1000 2 200 1
           (button_tracker 47 true 3 100 0 2 [0; 20; 100; 0])).
  - discriminate.
  - reflexivity.
  - vm_compute; discriminate.
  - vm_compute; discriminate.
  - vm_compute; reflexivity.
  - vm_compute; reflexivity.
Defined.

(** X6, on an instance: three clicks, 700 ms after the last release. *)
Lemma timeout_reports_click_count_witness :
  exists sent,
    multi_click_timeout 1000 0 820 (button_tracker 21 false 0 100 120 3 [0; 20; 60; 100]) =
      Ok (button_tracker 21 false 0 100 0 0 [0; 20; 60; 100], sent) /\
    presses_reported sent = 3.
Proof.
  apply (timeout_reports_click_count 1000 0 820
           (button_tracker 21 false 0 100 120 3 [0; 20; 60; 100])).
  - reflexivity.
  - simpl; lia.
  - reflexivity.
Defined.

(** X7, on an instance: two presses 40 ms apart are one DOUBLE. *)
Lemma one_or_two_clicks_timeout_witness :
  multi_click_timeout 1000 0 780 (button_tracker 21 false 0 60 80 2 [0; 20; 60; 0]) =
    Ok (button_tracker 21 false 0 60 0 0 [0; 20; 60; 0],
        [button_event 1 PRESS_DOUBLE 780]).
Proof.
  destruct (one_or_two_clicks_timeout 1000 0 780 0 20 60 0
              (button_tracker 21 false 0 60 80 2 [0; 20; 60; 0])
              ltac:(simpl; lia) eq_refl eq_refl) as (tys & Hrun & _ & Hdouble & _).
  rewrite Hrun, Hdouble; [reflexivity | reflexivity | vm_compute; reflexivity].
Defined.

(** X8, on an instance: a second press within the window is stored. *)
Lemma press_accepted_defined_witness :
  exists b', press_accepted 1000 60 (button_tracker 21 true 0 20 40 1 [0; 20; 0; 0]) = Ok b'.
Proof.
  apply (press_accepted_defined 1000 60 (button_tracker 21 true 0 20 40 1 [0; 20; 0; 0])).
  - reflexivity.
  - simpl; lia.
  - left. simpl; lia.
Defined.

(** X9, on an instance: button 1 finalises a triple click while the other
    two are idle. *)
Lemma ButtonInput_iter_events_witness :
  Forall (fun ev => 1 <= button_id ev <= 3 /\ timestamp ev = 820)
         [button_event 1 PRESS_TRIPLE 820].
Proof.
  apply (ButtonInput_iter_events 1000 820 (fun _ => 1)
           [button_tracker BTN1_PIN false 0 100 120 3 [0; 20; 60; 100];
            tracker_init BTN2_PIN; tracker_init BTN3_PIN]
           [button_tracker BTN1_PIN false 0 100 0 0 [0; 20; 60; 100];
            tracker_init BTN2_PIN; tracker_init BTN3_PIN]).
  - reflexivity.
  - repeat (apply List.Forall_cons; [unfold tracker_ok; simpl; lia|]).
    apply List.Forall_nil.
  - vm_compute; reflexivity.
Defined.

(** * Further properties of the menu state machine *)

Section MenuLogic_navigation.

Import MenuLogic.

Lemma MenuLogic_run_app (m : locals) (rs1 rs2 : list received) :
  MenuLogic_run m (rs1 ++ rs2) =
  bind (MenuLogic_run m rs1) (fun p1 =>
    bind (MenuLogic_run (fst p1) rs2) (fun p2 =>
      Ok (fst p2, snd p1 ++ snd p2))).
Proof.
  revert m. induction rs1 as [|r rs1 IH]; intros m; simpl.
  - destruct (MenuLogic_run m rs2) as [[m2 s2]|f]; reflexivity.
  - destruct (MenuLogic_iter m r) as [[m1 s1]|f]; simpl; [|reflexivity].
    rewrite IH.
    destruct (MenuLogic_run m1 rs1) as [[m2 s2]|f]; simpl; [|reflexivity].
    destruct (MenuLogic_run m2 rs2) as [[m3 s3]|f]; simpl; [|reflexivity].
    rewrite app_assoc. reflexivity.
Qed.

(** In range, an event sends at most one update, which holds a 16-bit
    pattern and the brightness of the new locals. *)
Lemma MenuLogic_iter_event_sent (m : locals) (ev : button_event_t) :
  in_range m ->
  exists m' sent,
    MenuLogic_iter m (Event ev) = Ok (m', sent) /\ in_range m' /\
    (length sent <= 1)%nat /\
    Forall (fun '(display_info p b) => 0 <= p < 2 ^ 16 /\ b = brightness m') sent.
Proof.
  intros Hm. pose proof (handle_event_in_range m ev Hm) as Hm'.
  unfold MenuLogic_iter. destruct (handle_event m ev) as [m' upd]. simpl in Hm'.
  destruct upd; simpl.
  - destruct (display_pattern_defined m' Hm') as (p & -> & Hp). simpl.
    eexists _, _. split; [reflexivity|]. split; [assumption|].
    split; [simpl; lia|]. apply List.Forall_cons; [|apply List.Forall_nil].
    split; [exact Hp | reflexivity].
  - eexists _, _. split; [reflexivity|]. split; [assumption|].
    split; [simpl; lia | apply List.Forall_nil].
Qed.

Lemma MenuLogic_run_events_defined (evs : list button_event_t) (m : locals) :
  in_range m ->
  exists m' sent,
    MenuLogic_run m (map Event evs) = Ok (m', sent) /\ in_range m' /\
    (length sent <= length evs)%nat /\
    Forall (fun '(display_info p b) => 0 <= p < 2 ^ 16 /\ 0 <= b <= 10) sent.
Proof.
  revert m. induction evs as [|ev evs IH]; intros m Hm; cbn [map MenuLogic_run].
  - exists m, []. split; [reflexivity|]. split; [exact Hm|].
    split; [simpl; lia | apply List.Forall_nil].
  - destruct (MenuLogic_iter_event_sent m ev Hm) as (m1 & s1 & -> & Hm1 & Hn1 & Hs1).
    cbn [bind].
    destruct (IH m1 Hm1) as (m2 & s2 & -> & Hm2 & Hn2 & Hs2). cbn [bind].
    exists m2, (s1 ++ s2). split; [reflexivity|]. split; [exact Hm2|].
    split; [rewrite length_app; simpl length; lia|].
    apply Forall_app. split; [|exact Hs2].
    eapply Forall_impl; [exact Hs1|]. intros [p b] (Hp & ->).
    split; [exact Hp | apply Hm1].
Qed.

(** X10. From power-up, every sequence of button events is handled without
    leaving the pattern table or shifting out of range: the run is defined,
    the locals stay in their ranges, at most one update is sent per event,
    and every update holds a 16-bit pattern and a brightness in 0..10. *)
Theorem power_up_run_defined (evs : list button_event_t) :
  exists m' sent,
    MenuLogic_run locals_init (map Event evs) = Ok (m', sent) /\
    in_range m' /\
    (length sent <= length evs)%nat /\
    Forall (fun '(display_info p b) => 0 <= p < 2 ^ 16 /\ 0 <= b <= 10) sent.
Proof. apply MenuLogic_run_events_defined, locals_init_in_range. Qed.

(** X11. In the main menu button 1 moves the selection forward and button 3
    moves it back: each undoes the other, four presses of either come back
    to the same item, and the update sent shows the single bit of the newly
    selected item. *)
Theorem main_menu_navigation (m : locals) (t : Z) :
  state m = STATE_MAIN_MENU ->
  0 <= selected_item m <= 3 ->
  let next := (selected_item m + 1) mod 4 in
  let prev := (selected_item m - 1) mod 4 in
  MenuLogic_iter m (single 1 t) =
    Ok (set_selected_item next m, [display_info (2 ^ next) (brightness m)]) /\
  MenuLogic_iter m (single 3 t) =
    Ok (set_selected_item prev m, [display_info (2 ^ prev) (brightness m)]) /\
  (exists sent, MenuLogic_run m [single 1 t; single 3 t] = Ok (m, sent)) /\
  (exists sent, MenuLogic_run m [single 3 t; single 1 t] = Ok (m, sent)) /\
  (exists sent, MenuLogic_run m (repeat (single 1 t) 4) = Ok (m, sent)) /\
  (exists sent, MenuLogic_run m (repeat (single 3 t) 4) = Ok (m, sent)).
Proof.
  destruct m as [s sel b a cp ip ta tp]. simpl. intros -> Hsel.
  assert (sel = 0 \/ sel = 1 \/ sel = 2 \/ sel = 3) as [-> | [-> | [-> | ->]]] by lia;
    (split; [reflexivity|]); (split; [reflexivity|]);
    repeat split; eexists; reflexivity.
Qed.

(** X12. Entering the sub-menu of the selected item with button 2 and
    leaving it with its back button (button 1 from the brightness menu,
    button 3 from the others) comes back to the main menu with the same
    item selected and brightness, mode and pattern index untouched; each of
    the two presses sends one update. *)
Theorem submenu_enter_and_back (m : locals) (t : Z) :
  state m = STATE_MAIN_MENU ->
  0 <= selected_item m <= 3 ->
  0 <= brightness m <= 10 ->
  let back := if selected_item m =? 0 then 1 else 3 in
  exists m' sent,
    MenuLogic_run m [single 2 t; single back t] = Ok (m', sent) /\
    state m' = STATE_MAIN_MENU /\
    selected_item m' = selected_item m /\
    brightness m' = brightness m /\
    is_auto_mode m' = is_auto_mode m /\
    current_pattern_idx m' = current_pattern_idx m /\
    length sent = 2%nat.
Proof.
  destruct m as [s sel b a cp ip ta tp]. simpl. intros -> Hsel Hb.
  assert (sel = 0 \/ sel = 1 \/ sel = 2 \/ sel = 3) as [-> | [-> | [-> | ->]]] by lia.
  - assert (b = 0 \/ b = 1 \/ b = 2 \/ b = 3 \/ b = 4 \/ b = 5 \/ b = 6 \/ b = 7 \/
            b = 8 \/ b = 9 \/ b = 10)
      as [-> | [-> | [-> | [-> | [-> | [-> | [-> | [-> | [-> | [-> | ->]]]]]]]]]] by lia;
      eexists _, _; (split; [reflexivity|]); repeat split.
  - destruct a; eexists _, _; (split; [reflexivity|]); repeat split.
  - eexists _, _; (split; [reflexivity|]); repeat split.
  - eexists _, _; (split; [reflexivity|]); repeat split.
Qed.

(** In the mode menu, [n] presses of button 1 flip the staged mode [n]
    times and touch nothing else. *)
Lemma mode_select_toggles (n : nat) (m : locals) (t : Z) :
  state m = STATE_MODE_SELECT ->
  exists sent,
    MenuLogic_run m (repeat (single 1 t) n) =
      Ok (set_temp_is_auto_mode (xorb (temp_is_auto_mode m) (Nat.odd n)) m, sent) /\
    length sent = n.
Proof.
  revert m. induction n as [|n IH]; intros m Hs.
  - exists []. destruct m as [s sel b a cp ip ta tp]. simpl.
    rewrite xorb_false_r. split; reflexivity.
  - destruct m as [s sel b a cp ip ta tp]. simpl in Hs. subst s.
    destruct (IH (Locals STATE_MODE_SELECT sel b a cp ip (negb ta) tp) eq_refl)
      as (sent & Hrun & Hlen).
    cbn [repeat MenuLogic_run].
    change (MenuLogic_iter (Locals STATE_MODE_SELECT sel b a cp ip ta tp) (single 1 t))
      with (Ok (Locals STATE_MODE_SELECT sel b a cp ip (negb ta) tp,
                [display_info (if negb ta then 0x000C else 0x0003) b])).
    cbn [bind]. rewrite Hrun. cbn [bind].
    eexists. split.
    + unfold set_temp_is_auto_mode. simpl temp_is_auto_mode.
      rewrite Nat.odd_succ, <- Nat.negb_odd. destruct ta, (Nat.odd n); reflexivity.
    + cbn [app length]. rewrite Hlen. reflexivity.
Qed.

(** X13. The mode menu edits a staged copy.  After any number of presses of
    button 1, button 3 goes back to the main menu with the mode, pattern
    index, brightness and selection as they were; button 2 makes the staged
    value (flipped once per press of button 1) the mode, and enters the auto
    mode if it is true and the manual mode, staging the current pattern
    index, if it is false. *)
Theorem mode_select_staging (n : nat) (m : locals) (t : Z) :
  state m = STATE_MODE_SELECT ->
  in_range m ->
  let staged := xorb (temp_is_auto_mode m) (Nat.odd n) in
  (exists m' sent,
     MenuLogic_run m (repeat (single 1 t) n ++ [single 3 t]) = Ok (m', sent) /\
     state m' = STATE_MAIN_MENU /\
     is_auto_mode m' = is_auto_mode m /\
     current_pattern_idx m' = current_pattern_idx m /\
     brightness m' = brightness m /\
     selected_item m' = selected_item m) /\
  (exists m' sent,
     MenuLogic_run m (repeat (single 1 t) n ++ [single 2 t]) = Ok (m', sent) /\
     is_auto_mode m' = staged /\
     state m' = (if staged then STATE_AUTO_MODE else STATE_MANUAL_MODE) /\
     (staged = false -> temp_pattern_idx m' = current_pattern_idx m) /\
     current_pattern_idx m' = current_pattern_idx m /\
     brightness m' = brightness m).
Proof.
  intros Hs Hm staged. subst staged.
  destruct (mode_select_toggles n m t Hs) as (sent & Hrun & _).
  rewrite !MenuLogic_run_app, Hrun. cbn [bind fst snd].
  destruct m as [s sel b a cp ip ta tp]. simpl in Hs. subst s.
  destruct Hm as (Hsel & Hb & Hcp & Hip & Htp). simpl in *.
  unfold set_temp_is_auto_mode. simpl.
  split.
  - assert (sel = 0 \/ sel = 1 \/ sel = 2 \/ sel = 3) as [-> | [-> | [-> | ->]]] by lia;
      eexists _, _; (split; [reflexivity|]); repeat split.
  - destruct (xorb ta (Nat.odd n));
      (assert (cp = 0 \/ cp = 1 \/ cp = 2 \/ cp = 3) as [-> | [-> | [-> | ->]]] by lia);
      eexists _, _; (split; [reflexivity|]); repeat split;
      intros H; first [discriminate H | reflexivity].
Qed.

(** In the manual menu, [n] presses of button 1 advance the staged pattern
    index [n] times round the table and touch nothing else. *)
Lemma manual_mode_advances (n : nat) (m : locals) (t : Z) :
  state m = STATE_MANUAL_MODE ->
  0 <= temp_pattern_idx m <= 3 ->
  exists sent,
    MenuLogic_run m (repeat (single 1 t) n) =
      Ok (set_temp_pattern_idx ((temp_pattern_idx m + Z.of_nat n) mod 4) m, sent) /\
    length sent = n.
Proof.
  revert m. induction n as [|n IH]; intros m Hs Htp.
  - exists []. destruct m as [s sel b a cp ip ta tp]. simpl in *.
    rewrite Z.add_0_r, Z.mod_small by lia. split; reflexivity.
  - destruct m as [s sel b a cp ip ta tp]. simpl in Hs, Htp. subst s.
    assert (Hn : 0 <= (tp + 1) mod 4 <= 3)
      by (pose proof (Z.mod_pos_bound (tp + 1) 4 ltac:(lia)); lia).
    destruct (IH (Locals STATE_MANUAL_MODE sel b a cp ip ta ((tp + 1) mod 4)) eq_refl Hn)
      as (sent & Hrun & Hlen).
    destruct (patterns_defined _ Hn) as (p & Hp & _).
    cbn [repeat MenuLogic_run].
    assert (Hiter : MenuLogic_iter (Locals STATE_MANUAL_MODE sel b a cp ip ta tp)
                                   (single 1 t) =
                    Ok (Locals STATE_MANUAL_MODE sel b a cp ip ta ((tp + 1) mod 4),
                        [display_info p b])).
    { unfold MenuLogic_iter, single, handle_event, switch_state. simpl.
      unfold display_pattern, NUM_PATTERNS. simpl.
      rewrite Z.rem_mod_nonneg by lia. rewrite Hp. reflexivity. }
    rewrite Hiter. cbn [bind]. rewrite Hrun. cbn [bind].
    eexists. split.
    + unfold set_temp_pattern_idx. cbn [temp_pattern_idx].
      rewrite Z.add_mod_idemp_l by lia.
      replace (tp + 1 + Z.of_nat n) with (tp + Z.of_nat (S n)) by lia.
      reflexivity.
    + cbn [app length]. rewrite Hlen. reflexivity.
Qed.

(** X14. The manual menu edits a staged pattern index.  After [n] presses
    of button 1, button 2 makes (staged index + n) mod 4 the pattern index
    and button 3 leaves the pattern index as it was; both go back to the
    main menu. *)
Theorem manual_mode_staging (n : nat) (m : locals) (t : Z) :
  state m = STATE_MANUAL_MODE ->
  in_range m ->
  (exists m' sent,
     MenuLogic_run m (repeat (single 1 t) n ++ [single 2 t]) = Ok (m', sent) /\
     state m' = STATE_MAIN_MENU /\
     current_pattern_idx m' = (temp_pattern_idx m + Z.of_nat n) mod 4) /\
  (exists m' sent,
     MenuLogic_run m (repeat (single 1 t) n ++ [single 3 t]) = Ok (m', sent) /\
     state m' = STATE_MAIN_MENU /\
     current_pattern_idx m' = current_pattern_idx m).
Proof.
  intros Hs Hm.
  destruct (manual_mode_advances n m t Hs ltac:(apply Hm)) as (sent & Hrun & _).
  rewrite !MenuLogic_run_app, Hrun. cbn [bind fst snd].
  destruct m as [s sel b a cp ip ta tp]. simpl in Hs. subst s.
  destruct Hm as (Hsel & Hb & Hcp & Hip & Htp). simpl in *.
  unfold set_temp_pattern_idx. simpl.
  split;
    (assert (sel = 0 \/ sel = 1 \/ sel = 2 \/ sel = 3) as [-> | [-> | [-> | ->]]] by lia);
    eexists _, _; (split; [reflexivity|]); repeat split.
Qed.

Lemma patterns_load_nth (idx : Z) :
  0 <= idx <= 3 -> array_load patterns idx = Ok (List.nth (Z.to_nat idx) patterns 0).
Proof.
  intros H.
  assert (idx = 0 \/ idx = 1 \/ idx = 2 \/ idx = 3) as [-> | [-> | [-> | ->]]] by lia;
    reflexivity.
Qed.

(** X15. Left alone in the auto mode, the display cycles through the
    pattern table: [n] timeouts in a row send [n] updates, the k-th holding
    the table entry at (index + k) mod 4 and the unchanged brightness, and
    leave the pattern index at (index + n) mod 4, still in the auto mode. *)
Theorem auto_mode_cycles (n : nat) (m : locals) :
  state m = STATE_AUTO_MODE ->
  0 <= current_pattern_idx m <= 3 ->
  MenuLogic_run m (repeat Timeout n) =
    Ok (set_current_pattern_idx ((current_pattern_idx m + Z.of_nat n) mod 4) m,
        map (fun k => display_info
                        (List.nth (Z.to_nat ((current_pattern_idx m + Z.of_nat k) mod 4))
                                  patterns 0)
                        (brightness m))
            (seq 1 n)).
Proof.
  revert m. induction n as [|n IH]; intros m Hs Hcp.
  - destruct m as [s sel b a cp ip ta tp]. simpl in *.
    rewrite Z.add_0_r, Z.mod_small by lia. reflexivity.
  - destruct m as [s sel b a cp ip ta tp]. simpl in Hs, Hcp. subst s.
    assert (Hn : 0 <= (cp + 1) mod 4 <= 3)
      by (pose proof (Z.mod_pos_bound (cp + 1) 4 ltac:(lia)); lia).
    cbn [repeat MenuLogic_run].
    assert (Hiter : MenuLogic_iter (Locals STATE_AUTO_MODE sel b a cp ip ta tp) Timeout =
                    Ok (Locals STATE_AUTO_MODE sel b a ((cp + 1) mod 4) ip ta tp,
                        [display_info (List.nth (Z.to_nat ((cp + 1) mod 4)) patterns 0) b])).
    { unfold MenuLogic_iter, NUM_PATTERNS. simpl.
      rewrite Z.rem_mod_nonneg by lia. rewrite (patterns_load_nth _ Hn). reflexivity. }
    rewrite Hiter. cbn [bind].
    rewrite (IH (Locals STATE_AUTO_MODE sel b a ((cp + 1) mod 4) ip ta tp) eq_refl Hn).
    cbn [bind]. unfold set_current_pattern_idx. cbn [current_pattern_idx brightness
      state selected_item is_auto_mode info_page temp_is_auto_mode temp_pattern_idx].
    f_equal. f_equal.
    + rewrite Z.add_mod_idemp_l by lia.
      replace (cp + 1 + Z.of_nat n) with (cp + Z.of_nat (S n)) by lia. reflexivity.
    + cbn [seq map app]. f_equal.
      rewrite <- (List.seq_shift n 1), List.map_map. apply List.map_ext.
      intros k. rewrite Z.add_mod_idemp_l by lia.
      replace (cp + 1 + Z.of_nat k) with (cp + Z.of_nat (S k)) by lia. reflexivity.
Qed.

(** X16. Power off and on again.  A long press of button 3 in the main menu
    sends one blank pattern and enters the off state.  While off, no event
    sends any update; every event but a long press of button 1 leaves the
    locals as they are, and a long press of button 1 goes to the main menu
    with item 0 selected, brightness 5, manual mode and pattern index 0,
    without sending an update for it. *)
Theorem power_off_and_wake (m : locals) (t : Z) :
  state m = STATE_MAIN_MENU ->
  let off := set_state STATE_POWER_OFF m in
  MenuLogic_iter m (long 3 t) = Ok (off, [display_info 0 (brightness m)]) /\
  (forall ev,
     is_press ev 1 PRESS_LONG = false -> MenuLogic_iter off (Event ev) = Ok (off, [])) /\
  MenuLogic_iter off (long 1 t) =
    Ok (Locals STATE_MAIN_MENU 0 5 false 0
          (info_page m) (temp_is_auto_mode m) (temp_pattern_idx m), []).
Proof.
  destruct m as [s sel b a cp ip ta tp]. simpl. intros ->.
  split; [reflexivity|]. split; [|reflexivity].
  intros ev Hev. unfold MenuLogic_iter, handle_event, power_off_event. simpl.
  rewrite Hev. reflexivity.
Qed.

(** X17. What the patterns of the two numeric screens mean, bit by bit: in
    the main menu LED [n] is lit exactly when [n] is the selected item; in
    the brightness menu LED [n] is lit exactly when [n] is below the
    brightness, a bar of as many LEDs as the brightness. *)
Theorem numeric_patterns_bits (m : locals) :
  in_range m ->
  (state m = STATE_MAIN_MENU ->
   exists p, display_pattern m = Ok p /\
             forall n, Z.testbit p n = true <-> n = selected_item m) /\
  (state m = STATE_BRIGHTNESS ->
   exists p, display_pattern m = Ok p /\
             forall n, Z.testbit p n = true <-> 0 <= n < brightness m).
Proof.
  destruct m as [s sel b a cp ip ta tp]. intros (Hsel & Hb & _). simpl in *.
  split; intros ->.
  - exists (2 ^ sel). split.
    + assert (sel = 0 \/ sel = 1 \/ sel = 2 \/ sel = 3) as [-> | [-> | [-> | ->]]] by lia;
        reflexivity.
    + intros n. rewrite Z.pow2_bits_eqb by lia. rewrite Z.eqb_eq. split; congruence.
  - exists (Z.ones b). split.
    + assert (b = 0 \/ b = 1 \/ b = 2 \/ b = 3 \/ b = 4 \/ b = 5 \/ b = 6 \/ b = 7 \/
              b = 8 \/ b = 9 \/ b = 10)
        as [-> | [-> | [-> | [-> | [-> | [-> | [-> | [-> | [-> | [-> | ->]]]]]]]]]] by lia;
        reflexivity.
    + intros n. rewrite Z.testbit_ones by lia.
      rewrite andb_true_iff, Z.leb_le, Z.ltb_lt. reflexivity.
Qed.

(** X11, on an instance. *)
Lemma main_menu_navigation_witness :
  MenuLogic_iter (Locals STATE_MAIN_MENU 3 5 false 0 0 false 0) (single 1 7) =
    Ok (Locals STATE_MAIN_MENU 0 5 false 0 0 false 0, [display_info 1 5]).
Proof.
  destruct (main_menu_navigation (Locals STATE_MAIN_MENU 3 5 false 0 0 false 0) 7
              eq_refl ltac:(simpl; lia)) as (Hnext & _).
  exact Hnext.
Defined.

(** X12, on an instance: into the reset menu and back. *)
Lemma submenu_enter_and_back_witness :
  exists m' sent,
    MenuLogic_run (Locals STATE_MAIN_MENU 3 7 true 2 1 false 0) [single 2 0; single 3 0] =
      Ok (m', sent) /\
    state m' = STATE_MAIN_MENU /\ selected_item m' = 3 /\ brightness m' = 7 /\
    is_auto_mode m' = true /\ current_pattern_idx m' = 2 /\ length sent = 2%nat.
Proof.
  apply (submenu_enter_and_back (Locals STATE_MAIN_MENU 3 7 true 2 1 false 0) 0
           eq_refl); simpl; lia.
Defined.

(** X13, on an instance: three toggles from Manual, then confirm. *)
Lemma mode_select_staging_witness :
  exists m' sent,
    MenuLogic_run (Locals STATE_MODE_SELECT 1 5 false 2 0 false 0)
      (repeat (single 1 0) 3 ++ [single 2 0]) = Ok (m', sent) /\
    is_auto_mode m' = true /\ state m' = STATE_AUTO_MODE.
Proof.
  destruct (mode_select_staging 3 (Locals STATE_MODE_SELECT 1 5 false 2 0 false 0) 0
              eq_refl ltac:(unfold in_range; simpl; lia))
    as (_ & m' & sent & Hrun & Hauto & Hstate & _).
  exists m', sent. split; [exact Hrun|]. split; [exact Hauto | exact Hstate].
Defined.

(** X14, on an instance: from index 2, three presses wrap to index 1. *)
Lemma manual_mode_staging_witness :
  exists m' sent,
    MenuLogic_run (Locals STATE_MANUAL_MODE 1 5 false 2 0 false 2)
      (repeat (single 1 0) 3 ++ [single 2 0]) = Ok (m', sent) /\
    state m' = STATE_MAIN_MENU /\ current_pattern_idx m' = 1.
Proof.
  destruct (manual_mode_staging 3 (Locals STATE_MANUAL_MODE 1 5 false 2 0 false 2) 0
              eq_refl ltac:(unfold in_range; simpl; lia))
    as ((m' & sent & Hrun & Hstate & Hidx) & _).
  exists m', sent. split; [exact Hrun|]. split; [exact Hstate | exact Hidx].
Defined.

(** X15, on an instance: five timeouts from index 2. *)
Lemma auto_mode_cycles_witness :
  MenuLogic_run (Locals STATE_AUTO_MODE 1 7 true 2 0 true 0) (repeat Timeout 5) =
    Ok (Locals STATE_AUTO_MODE 1 7 true 3 0 true 0,
        [display_info 0x0F0F 7; display_info 0xFFFF 7; display_info 0xAAAA 7;
         display_info 0x5555 7; display_info 0x0F0F 7]).
Proof.
  apply (auto_mode_cycles 5 (Locals STATE_AUTO_MODE 1 7 true 2 0 true 0)).
  - reflexivity.
  - simpl; lia.
Defined.

(** X16, on an instance. *)
Lemma power_off_and_wake_witness :
  MenuLogic_iter (Locals STATE_POWER_OFF 2 9 true 3 1 true 2) (long 1 0) =
    Ok (Locals STATE_MAIN_MENU 0 5 false 0 1 true 2, []).
Proof.
  destruct (power_off_and_wake (Locals STATE_MAIN_MENU 2 9 true 3 1 true 2) 0 eq_refl)
    as (_ & _ & Hwake).
  exact Hwake.
Defined.

(** X17, on an instance: brightness 5 lights LEDs 0 to 4. *)
Lemma numeric_patterns_bits_witness :
  exists p, display_pattern (Locals STATE_BRIGHTNESS 0 5 false 0 0 false 0) = Ok p /\
            forall n, Z.testbit p n = true <-> 0 <= n < 5.
Proof.
  destruct (numeric_patterns_bits (Locals STATE_BRIGHTNESS 0 5 false 0 0 false 0)
              ltac:(unfold in_range; simpl; lia)) as (_ & Hbar).
  exact (Hbar eq_refl).
Defined.

End MenuLogic_navigation.

(** * Further properties of the display task *)

Section DisplayManager_more.

Lemma testbit_b2z (c : bool) (k : Z) : Z.testbit (Z.b2z c) k = c && (k =? 0).
Proof.
  destruct c; simpl.
  - destruct k; reflexivity.
  - apply Z.testbit_0_l.
Qed.

(** Masking with a single bit tests that bit. *)
Lemma land_single_bit (p i : Z) :
  0 <= i -> (Z.land p (2 ^ i) =? 0) = negb (Z.testbit p i).
Proof.
  intros Hi. destruct (Z.testbit p i) eqn:Hb; simpl.
  - apply Z.eqb_neq. intros H0.
    assert (Hi' : Z.testbit (Z.land p (2 ^ i)) i = true).
    { rewrite Z.land_spec, Hb, Z.pow2_bits_true by lia. reflexivity. }
    rewrite H0, Z.testbit_0_l in Hi'. discriminate.
  - apply Z.eqb_eq. apply Z.bits_inj'. intros n Hn.
    rewrite Z.land_spec, Z.testbit_0_l, Z.pow2_bits_eqb by lia.
    destruct (Z.eqb_spec i n); [subst; rewrite Hb; reflexivity | apply andb_false_r].
Qed.

Lemma shift_bit_level (p i : Z) :
  0 <= i < 32 ->
  shift_bit p i =
    [gpio_set_level DS_PIN (Z.b2z (Z.testbit p i));
     gpio_set_level CLOCK_PIN 1; gpio_set_level CLOCK_PIN 0].
Proof.
  intros Hi. unfold shift_bit, u32.
  rewrite Z.shiftl_1_l, Z.mod_small.
  - rewrite land_single_bit by lia. destruct (Z.testbit p i); reflexivity.
  - split; [apply Z.pow_nonneg; lia | apply Z.pow_lt_mono_r; lia].
Qed.

Lemma clocked_in_shift_out (p ds : Z) :
  clocked_in ds (shift_out_pattern p) =
  map (fun i => Z.b2z (Z.testbit p i)) shift_order.
Proof.
  unfold shift_out_pattern, shift_order. cbn [flat_map app].
  rewrite !shift_bit_level by lia. reflexivity.
Qed.

(** Putting the clocked-in levels back at their bit positions gives a
    16-bit pattern again. *)
Lemma word_of_shift_out (p ds : Z) :
  0 <= p < 2 ^ 16 ->
  word_of_bits shift_order (clocked_in ds (shift_out_pattern p)) = p.
Proof.
  intros Hp.
  rewrite clocked_in_shift_out. unfold shift_order. cbn [map word_of_bits].
  apply Z.bits_inj'. intros j Hj.
  rewrite !Z.lor_spec, !Z.shiftl_spec, !testbit_b2z, Z.testbit_0_l by lia.
  destruct (Z.lt_ge_cases j 16) as [Hlow|Hhigh].
  { assert (Hbit : j = 0 \/ j = 1 \/ j = 2 \/ j = 3 \/ j = 4 \/ j = 5 \/ j = 6 \/
                   j = 7 \/ j = 8 \/ j = 9 \/ j = 10 \/ j = 11 \/ j = 12 \/
                   j = 13 \/ j = 14 \/ j = 15) by lia.
    repeat (destruct Hbit as [-> | Hbit];
            [simpl; rewrite ?andb_false_r, ?andb_true_r, ?orb_false_r; reflexivity|]).
    subst j. simpl. rewrite ?andb_false_r, ?andb_true_r, ?orb_false_r. reflexivity. }
  repeat match goal with
    | |- context [?a - ?i =? 0] => destruct (Z.eqb_spec (a - i) 0); [lia|]
    end.
  rewrite ?andb_false_r. simpl.
  rewrite <- (Z.mod_small p (2 ^ 16)) by lia.
  symmetry. apply Z.mod_pow2_bits_high. lia.
Qed.

(** X18. What [shift_out_pattern] puts on the bus can be read back: at the
    sixteen rising clock edges the data line holds bits 7 down to 0 and then
    15 down to 8 of the pattern, whatever it held before; putting each level
    back at its bit position gives the pattern again (for a 16-bit
    pattern); and the latch line rises once, after the last clock edge. *)
Theorem shift_out_round_trip (p ds : Z) :
  0 <= p < 2 ^ 16 ->
  clocked_in ds (shift_out_pattern p) =
    map (fun i => Z.b2z (Z.testbit p i)) shift_order /\
  word_of_bits shift_order (clocked_in ds (shift_out_pattern p)) = p /\
  latch_pulses (shift_out_pattern p) = 1%nat /\
  exists shifted,
    shift_out_pattern p =
      shifted ++ [gpio_set_level LATCH_PIN 1; gpio_set_level LATCH_PIN 0] /\
    latch_pulses shifted = 0%nat /\
    length (clocked_in ds shifted) = 16%nat.
Proof.
  intros Hp. split; [apply clocked_in_shift_out|]. split; [|split].
  - apply word_of_shift_out, Hp.
  - unfold shift_out_pattern. cbn [flat_map app].
    rewrite !shift_bit_level by lia. reflexivity.
  - eexists. split; [unfold shift_out_pattern; rewrite app_assoc; reflexivity|].
    cbn [flat_map app]. rewrite !shift_bit_level by lia.
    split; reflexivity.
Qed.

(** X19. The duty is inverted and strictly so: of two brightness levels in
    0..10 the brighter one gets the strictly smaller duty, so no two levels
    share a duty. *)
Theorem duty_strictly_decreasing (b1 b2 : Z) :
  0 <= b1 -> b1 < b2 -> b2 <= 10 -> duty_of b2 < duty_of b1.
Proof.
  intros H1 H12 H2.
  rewrite !duty_of_exact by lia.
  apply Z.lt_le_trans with ((1023 * (10 - b2) + 10) / 10).
  - replace (1023 * (10 - b2) + 10) with (1023 * (10 - b2) + 1 * 10) by lia.
    rewrite Z.div_add by lia. lia.
  - apply Z.div_le_mono; lia.
Qed.

Lemma duty_writes_iter (current_brightness : Z) (info : display_info_t) :
  fst (DisplayManager_iter current_brightness info) = brightness info /\
  duty_writes (snd (DisplayManager_iter current_brightness info)) =
    if brightness info =? current_brightness then []
    else [duty_of (brightness info)].
Proof.
  unfold DisplayManager_iter.
  destruct (Z.eqb_spec (brightness info) current_brightness) as [Heq|Hne];
    cbn [negb fst snd].
  - split; [symmetry; exact Heq|].
    rewrite duty_writes_app.
    change (duty_writes (xSemaphoreTake :: shift_out_pattern (pattern info)))
      with (duty_writes (shift_out_pattern (pattern info))).
    rewrite duty_writes_shift_out. reflexivity.
  - split; [reflexivity|].
    rewrite !duty_writes_app.
    change (duty_writes (xSemaphoreTake :: shift_out_pattern (pattern info)))
      with (duty_writes (shift_out_pattern (pattern info))).
    rewrite duty_writes_shift_out. reflexivity.
Qed.

(** Either nothing was applied and written yet, or the last duty written is
    the one of the remembered brightness: the task keeps this up. *)
Lemma DisplayManager_run_tracks (infos : list display_info_t)
    (current_brightness : Z) (written : list Z) :
  Forall (fun d => 0 <= brightness d) infos ->
  (current_brightness = -1 /\ written = []) \/
  last written = Some (duty_of current_brightness) ->
  let final := fst (DisplayManager_run current_brightness infos) in
  let calls := snd (DisplayManager_run current_brightness infos) in
  (final = -1 /\ written ++ duty_writes calls = []) \/
  last (written ++ duty_writes calls) = Some (duty_of final).
Proof.
  revert current_brightness written.
  induction infos as [|info rest IH]; intros cb w Hall Hinv; simpl.
  - rewrite app_nil_r. exact Hinv.
  - apply Forall_cons in Hall as (Hb & Hall).
    destruct (duty_writes_iter cb info) as (Hfst & Hw).
    destruct (DisplayManager_iter cb info) as [applied calls1]. simpl in Hfst, Hw.
    specialize (IH applied (w ++ duty_writes calls1) Hall).
    destruct (DisplayManager_run applied rest) as [final calls2]. simpl in IH |- *.
    rewrite duty_writes_app, app_assoc. apply IH.
    subst applied. rewrite Hw.
    destruct (Z.eqb_spec (brightness info) cb) as [Heq|Hne].
    + rewrite app_nil_r. right. destruct Hinv as [[Hc _]|Hl]; [lia|].
      rewrite Heq. exact Hl.
    + right. apply last_snoc.
Qed.

Lemma DisplayManager_run_final (infos : list display_info_t) (info : display_info_t)
    (current_brightness : Z) :
  fst (DisplayManager_run current_brightness (infos ++ [info])) = brightness info.
Proof.
  revert current_brightness. induction infos as [|i rest IH]; intros cb; simpl.
  - destruct (duty_writes_iter cb info) as (Hfst & _).
    destruct (DisplayManager_iter cb info) as [applied calls]. exact Hfst.
  - destruct (DisplayManager_iter cb i) as [applied calls].
    specialize (IH applied).
    destruct (DisplayManager_run applied (rest ++ [info])) as [final calls']. exact IH.
Qed.

(** X20. Skipping the write when the brightness is unchanged loses nothing:
    from start-up (nothing applied, -1 remembered), after any updates with
    brightness of at least 0, the last duty written to the hardware is the
    duty of the brightness of the latest update, which is also the
    brightness remembered. *)
Theorem duty_tracks_latest_update (infos : list display_info_t) (info : display_info_t) :
  Forall (fun d => 0 <= brightness d) (infos ++ [info]) ->
  fst (DisplayManager_run (-1) (infos ++ [info])) = brightness info /\
  last (duty_writes (snd (DisplayManager_run (-1) (infos ++ [info])))) =
    Some (duty_of (brightness info)).
Proof.
  intros Hall. split; [apply DisplayManager_run_final|].
  pose proof (DisplayManager_run_tracks (infos ++ [info]) (-1) [] Hall
                (or_introl (conj eq_refl eq_refl))) as H.
  simpl in H. rewrite DisplayManager_run_final in H.
  destruct H as [[Hneg _]|H]; [|exact H].
  apply Forall_app in Hall as (_ & Hlast).
  apply Forall_cons in Hlast as (Hb & _). lia.
Qed.

End DisplayManager_more.

(** X18, on an instance: the pattern 0x0F0F. *)
Lemma shift_out_round_trip_witness :
  word_of_bits shift_order (clocked_in 0 (shift_out_pattern 0x0F0F)) = 0x0F0F.
Proof.
  destruct (shift_out_round_trip 0x0F0F 0 ltac:(lia)) as (_ & Hword & _).
  exact Hword.
Defined.

(** X19, on an instance: brightness 5 and 6. *)
Lemma duty_strictly_decreasing_witness : duty_of 6 < duty_of 5.
Proof. apply (duty_strictly_decreasing 5 6); lia. Defined.

(** X20, on an instance: brightness 5, 5, 7, 7. *)
Lemma duty_tracks_latest_update_witness :
  last (duty_writes (snd (DisplayManager_run (-1)
          ([display_info 1 5; display_info 2 5; display_info 4 7] ++
           [display_info 8 7])))) =
    Some (duty_of 7).
Proof.
  destruct (duty_tracks_latest_update
              [display_info 1 5; display_info 2 5; display_info 4 7] (display_info 8 7))
    as (_ & Hlast).
  - repeat (apply List.Forall_cons; [simpl; lia|]). apply List.Forall_nil.
  - exact Hlast.
Defined.

(** * The menu task feeding the display task *)

(** X21. Whatever buttons are pressed from power-up, every update the menu
    task sends is one the display task handles exactly: its pattern is read
    back unchanged from the bus, and its brightness gives the duty
    1023 * (10 - brightness) / 10, between 0 and 1023. *)
Theorem menu_updates_displayed_exactly (evs : list button_event_t) :
  exists m' sent,
    MenuLogic.MenuLogic_run MenuLogic.locals_init (map MenuLogic.Event evs) =
      Ok (m', sent) /\
    Forall (fun d =>
              word_of_bits shift_order (clocked_in 0 (shift_out_pattern (pattern d))) =
                pattern d /\
              duty_of (brightness d) = 1023 * (10 - brightness d) / 10 /\
              0 <= duty_of (brightness d) <= 1023) sent.
Proof.
  destruct (MenuLogic_run_events_defined evs MenuLogic.locals_init locals_init_in_range)
    as (m' & sent & Hrun & _ & _ & Hall).
  exists m', sent. split; [exact Hrun|].
  eapply Forall_impl; [exact Hall|].
  intros [p b] (Hp & Hb). cbn [pattern brightness].
  split; [exact (word_of_shift_out p 0 Hp)|].
  pose proof (duty_of_exact b Hb) as Hd. split; [exact Hd|].
  rewrite Hd. split.
  - apply Z.div_pos; lia.
  - apply Z.div_le_upper_bound; lia.
Qed.
